(** * simple_data_mapping: the detail-resolution and section-mapping pipeline

    A shallow embedding of [src/util.py] and [src/models.py].

    - JSON payloads are the values Python's [json] module produces:
      [None], [bool], [int], [str], [list] and [dict] (numbers are modelled
      as integers; a JSON object is an association list read with the last
      binding of a key winning, as [json.loads] and [dict.update] do).
    - Exceptions are explicit: every computation returns [Ok v] or
      [Raise e].
    - The network, the clock, the rendering of an article and the pydantic
      validators are the interfaces of the program; they are gathered in
      [Platform]. *)

From Stdlib Require Import String Ascii List ZArith Bool Arith Lia.
Import ListNotations.

Local Open Scope list_scope.
Local Open Scope Z_scope.

Set Warnings "-register-all".

(* ================================================================== *)
(** ** Python values coming from JSON *)

Inductive json : Type :=
| JNull
| JBool (b : bool)
| JInt (n : Z)
| JStr (s : string)
| JArr (l : list json)
| JObj (d : list (string * json)).

Definition dict := list (string * json).

(** The exceptions the pipeline can raise. [JSONError] stands for what
    [response.json()] raises on a body that is not JSON, [ValidationError]
    for pydantic's. *)
Inductive exn : Type :=
| KeyError | TypeError | ValueError | ValidationError | JSONError.

Inductive result (A : Type) : Type :=
| Ok (a : A)
| Raise (e : exn).
Arguments Ok {A} a.
Arguments Raise {A} e.

Definition rbind {A B} (r : result A) (k : A -> result B) : result B :=
  match r with
  | Ok a => k a
  | Raise e => Raise e
  end.

Declare Scope result_scope.
Delimit Scope result_scope with result.
Notation "'try' x <- c1 ; c2" := (rbind c1 (fun x => c2))
  (at level 61, x name, c1 at next level, right associativity) : result_scope.
Local Open Scope result_scope.

(** [d.get(k)] read as an option: the last binding of [k] wins. *)
Fixpoint dict_get (k : string) (d : dict) : option json :=
  match d with
  | [] => None
  | (k', v) :: d' =>
      match dict_get k d' with
      | Some w => Some w
      | None => if String.eqb k k' then Some v else None
      end
  end.

(** [d.get(k)]: [None] when the key is missing. *)
Definition py_get (k : string) (d : dict) : json :=
  match dict_get k d with
  | Some v => v
  | None => JNull
  end.

(** [d.update(val)]: the bindings of [val] shadow those of [d]. *)
Definition dict_update (d val : dict) : dict := d ++ val.

(** [obj[k]] for a string key [k]: only a dict can be indexed by a string. *)
Definition subscript (obj : json) (k : string) : result json :=
  match obj with
  | JObj d =>
      match dict_get k d with
      | Some v => Ok v
      | None => Raise KeyError
      end
  | _ => Raise TypeError
  end.

(** Python truthiness, as tested by [if cat]. *)
Definition truthy (j : json) : bool :=
  match j with
  | JNull => false
  | JBool b => b
  | JInt n => negb (n =? 0)
  | JStr s => negb (String.eqb s EmptyString)
  | JArr l => match l with [] => false | _ => true end
  | JObj d => match d with [] => false | _ => true end
  end.

(** Lists and dicts cannot be dict keys or set elements. *)
Definition hashable (j : json) : bool :=
  match j with
  | JArr _ | JObj _ => false
  | _ => true
  end.

(** Equality of hashable values as dict keys: [True == 1], [False == 0]. *)
Definition py_eqb (a b : json) : bool :=
  match a, b with
  | JNull, JNull => true
  | JBool x, JBool y => Bool.eqb x y
  | JBool x, JInt n | JInt n, JBool x => n =? (if x then 1 else 0)
  | JInt n, JInt m => n =? m
  | JStr s, JStr t => String.eqb s t
  | _, _ => false
  end.

(** [for x in obj]: a list yields its elements, a dict its keys, a string
    its characters; the other values are not iterable. *)
Definition py_iter (obj : json) : result (list json) :=
  match obj with
  | JArr l => Ok l
  | JObj d => Ok (map JStr (nodup string_dec (map fst d)))
  | JStr s => Ok (map (fun c => JStr (String c EmptyString)) (list_ascii_of_string s))
  | _ => Raise TypeError
  end.

(* ================================================================== *)
(** ** util.py: [to_datetime] *)

Record datetime : Type := mkDatetime {
  year : Z; month : Z; day : Z;
  hour : Z; minute : Z; second : Z;
  microsecond : Z
}.

Definition is_leap (y : Z) : bool :=
  ((y mod 4 =? 0) && negb (y mod 100 =? 0)) || (y mod 400 =? 0).

Definition days_in_month (y m : Z) : Z :=
  if m =? 2 then (if is_leap y then 29 else 28)
  else if (m =? 4) || (m =? 6) || (m =? 9) || (m =? 11) then 30
  else 31.

(** The range checks of the [datetime] constructor. *)
Definition datetime_ok (dt : datetime) : bool :=
  (1 <=? year dt) && (year dt <=? 9999) &&
  (1 <=? month dt) && (month dt <=? 12) &&
  (1 <=? day dt) && (day dt <=? days_in_month (year dt) (month dt)) &&
  (0 <=? hour dt) && (hour dt <=? 23) &&
  (0 <=? minute dt) && (minute dt <=? 59) &&
  (0 <=? second dt) && (second dt <=? 59) &&
  (0 <=? microsecond dt) && (microsecond dt <=? 999999).

Module Strptime.

(** [datetime.strptime] turns the format into a regular expression,
    matches it at the start of the text, refuses leftover text, converts
    the captured groups with [int] and calls the [datetime] constructor.
    The directives used by [to_datetime] are alternations of fixed-length
    sequences of character classes, tried from left to right with
    backtracking. A text is a sequence of ASCII characters, so [\d] is
    [[0-9]]. *)

Definition cls := ascii -> bool.

Definition in_range (lo hi : ascii) : cls :=
  fun c => (nat_of_ascii lo <=? nat_of_ascii c)%nat
           && (nat_of_ascii c <=? nat_of_ascii hi)%nat.

Definition is_char (x : ascii) : cls := fun c => Ascii.eqb c x.

Definition digit : cls := in_range "0" "9".

Inductive item : Type :=
| Lit (l : list ascii)
| Dir (alts : list (list cls)).

(** [%Y] is [\d\d\d\d]. *)
Definition dir_Y : item := Dir [[digit; digit; digit; digit]].
(** [%m] is [1[0-2]|0[1-9]|[1-9]]. *)
Definition dir_m : item :=
  Dir [[is_char "1"; in_range "0" "2"]; [is_char "0"; in_range "1" "9"];
       [in_range "1" "9"]].
(** [%d] is [3[01]|[12]\d|0[1-9]|[1-9]| [1-9]]. *)
Definition dir_d : item :=
  Dir [[is_char "3"; in_range "0" "1"]; [in_range "1" "2"; digit];
       [is_char "0"; in_range "1" "9"]; [in_range "1" "9"];
       [is_char " "; in_range "1" "9"]].
(** [%H] is [2[0-3]|[0-1]\d|\d]. *)
Definition dir_H : item :=
  Dir [[is_char "2"; in_range "0" "3"]; [in_range "0" "1"; digit]; [digit]].
(** [%M] is [[0-5]\d|\d]. *)
Definition dir_M : item := Dir [[in_range "0" "5"; digit]; [digit]].
(** [%S] is [6[0-1]|[0-5]\d|\d]. *)
Definition dir_S : item :=
  Dir [[is_char "6"; in_range "0" "1"]; [in_range "0" "5"; digit]; [digit]].

(** A separator that [strptime] matches as it is written: printable, and
    no letter (the match ignores case), no [%] (a directive) and no white
    space (which stands for a run of white space). The program passes
    [";"] and [":"]. *)
Definition plain_char : cls :=
  fun c => in_range "!" "~" c
           && negb (in_range "a" "z" c || in_range "A" "Z" c || is_char "%" c).

Definition plain_sep (sep : list ascii) : bool := forallb plain_char sep.

(** The format [f"%Y-%m-%d-%H{sep}%M{sep}%S"], for a plain separator. *)
Definition format (sep : list ascii) : list item :=
  [dir_Y; Lit ["-"%char]; dir_m; Lit ["-"%char]; dir_d; Lit ["-"%char];
   dir_H; Lit sep; dir_M; Lit sep; dir_S].

Fixpoint match_alt (a : list cls) (s : list ascii)
  : option (list ascii * list ascii) :=
  match a with
  | [] => Some ([], s)
  | c :: a' =>
      match s with
      | x :: s' =>
          if c x then
            match match_alt a' s' with
            | Some (t, r) => Some (x :: t, r)
            | None => None
            end
          else None
      | [] => None
      end
  end.

Fixpoint strip_prefix (l s : list ascii) : option (list ascii) :=
  match l with
  | [] => Some s
  | c :: l' =>
      match s with
      | x :: s' => if Ascii.eqb x c then strip_prefix l' s' else None
      | [] => None
      end
  end.

Fixpoint first_some {A B} (f : A -> option B) (l : list A) : option B :=
  match l with
  | [] => None
  | a :: l' =>
      match f a with
      | Some b => Some b
      | None => first_some f l'
      end
  end.

(** The first match in the order a backtracking matcher finds it: the
    captured groups and the text left after the match. *)
Fixpoint match_items (p : list item) (s : list ascii)
  : option (list (list ascii) * list ascii) :=
  match p with
  | [] => Some ([], s)
  | Lit l :: p' =>
      match strip_prefix l s with
      | Some r => match_items p' r
      | None => None
      end
  | Dir alts :: p' =>
      first_some
        (fun a =>
           match match_alt a s with
           | Some (t, r) =>
               match match_items p' r with
               | Some (caps, rest) => Some (t :: caps, rest)
               | None => None
               end
           | None => None
           end)
        alts
  end.

Definition digit_val (c : ascii) : Z := Z.of_nat (nat_of_ascii c) - 48.

(** [int(text)] on a captured group: digits, after an optional blank. *)
Definition int_of (t : list ascii) : Z :=
  fold_left
    (fun acc c => if Ascii.eqb c " " then acc else 10 * acc + digit_val c)
    t 0.

Definition strptime (s sep : list ascii) : result datetime :=
  match match_items (format sep) s with
  | None => Raise ValueError
  | Some (caps, rest) =>
      match rest with
      | _ :: _ => Raise ValueError
      | [] =>
          match caps with
          | [ty; tm; td; tH; tM; tS] =>
              let dt := mkDatetime (int_of ty) (int_of tm) (int_of td)
                                   (int_of tH) (int_of tM) (int_of tS) 0 in
              if datetime_ok dt then Ok dt else Raise ValueError
          | _ => Raise ValueError
          end
      end
  end.

End Strptime.

(** [to_datetime(datetime_str, sep)]: [strptime] wants a [str]. *)
Definition to_datetime (datetime_str : json) (sep : string) : result datetime :=
  match datetime_str with
  | JStr s => Strptime.strptime (list_ascii_of_string s) (list_ascii_of_string sep)
  | _ => Raise TypeError
  end.

(** [datetime.isoformat()]: [YYYY-MM-DDTHH:MM:SS], followed by [.ffffff]
    when the microsecond is not zero. *)
Module Iso.

Definition digit_char (n : Z) : ascii :=
  ascii_of_nat (48 + Z.to_nat (n mod 10)).

Definition pad2 (n : Z) : list ascii := [digit_char (n / 10); digit_char n].

Definition pad4 (n : Z) : list ascii := pad2 (n / 100) ++ pad2 n.

Definition pad6 (n : Z) : list ascii := pad2 (n / 10000) ++ pad4 n.

Definition chars (dt : datetime) : list ascii :=
  pad4 (year dt) ++ "-"%char :: pad2 (month dt) ++ "-"%char :: pad2 (day dt)
  ++ "T"%char :: pad2 (hour dt) ++ ":"%char :: pad2 (minute dt)
  ++ ":"%char :: pad2 (second dt)
  ++ (if microsecond dt =? 0 then [] else "."%char :: pad6 (microsecond dt)).

Definition isoformat (dt : datetime) : string :=
  string_of_list_ascii (chars dt).

End Iso.

(* ================================================================== *)
(** ** models.py: the data model *)

Inductive SectionType : Type :=
| TextSection | TitleSection | LeadSection | HeaderSection
| ImageSection | MediaSection.

(** The values handed to the pydantic constructors as keyword arguments. *)
Inductive pyval : Type :=
| VJson (j : json)
| VDatetime (dt : datetime)
| VSet (elems : list json).

Definition kwargs := list (string * pyval).

(** A constructed section: an instance of one of the six classes with its
    validated fields. *)
Record section : Type := mkSection {
  section_class : SectionType;
  section_fields : kwargs
}.

(** The dictionary [detail] built by [Article._extract_details]. *)
Record detail : Type := mkDetail {
  d_id : json;
  d_original_language : json;
  d_url : string;
  d_thumbnail : json;
  d_categories : pyval;
  d_tags : pyval;
  d_author : json;
  d_publication_date : datetime;
  d_modification_date : datetime;
  d_sections : list section
}.

(** What one GET can do. *)
Inductive http_outcome : Type :=
| TransportError            (* [session.get] raises *)
| BadStatus                 (* [raise_for_status] raises *)
| BadBody                   (* success status, [response.json()] raises *)
| Body (j : json).          (* success status, body parsed *)

(** The interfaces of the program. [net n url] is the outcome of a GET of
    [url] issued after [n] earlier requests; [now] is the reading of the
    clock; [py_str] is [str()] on a value that is not a string;
    [validate_section] and [validate_article] are the pydantic constructors
    ([None] is a validation error); [render] is the text [print] writes
    for an article ([None] when rendering it raises). *)
Class Platform : Type := {
  net : nat -> string -> http_outcome;
  now : datetime;
  py_str : json -> string;
  validate_section : SectionType -> kwargs -> option kwargs;
  validate_article : detail -> option detail;
  render : detail -> option string
}.

(** The state of the outside world: the URLs requested so far (latest
    first) and the lines printed so far (latest first). *)
Record world : Type := mkWorld {
  requests : list string;
  printed : list string
}.

Definition M (A : Type) : Type := world -> result A * world.

Definition ret {A} (a : A) : M A := fun w => (Ok a, w).

Definition raise {A} (e : exn) : M A := fun w => (Raise e, w).

Definition bind {A B} (c : M A) (k : A -> M B) : M B :=
  fun w =>
    match c w with
    | (Ok a, w') => k a w'
    | (Raise e, w') => (Raise e, w')
    end.

Definition lift {A} (r : result A) : M A := fun w => (r, w).

Declare Scope io_scope.
Delimit Scope io_scope with io.
Notation "x <- c1 ;; c2" := (bind c1 (fun x => c2))
  (at level 61, c1 at next level, right associativity) : io_scope.

Definition ARTICLE_DETAIL_URL : string :=
  "https://mapping-test.fra1.digitaloceanspaces.com/data/articles/".

Definition BASE_MEDIA_URL : string :=
  "https://mapping-test.fra1.digitaloceanspaces.com/data/media/".

(** The field lists of [Article._map_section]. *)
Definition mapper : list (string * (SectionType * list string)) :=
  [ ("text", (TextSection, ["type"; "text"]));
    ("media", (MediaSection,
               ["type"; "id"; "url"; "thumbnail"; "caption"; "author";
                "publication_date"; "modification_date"; "duration"]));
    ("image", (ImageSection, ["type"; "url"; "alt"; "caption"; "source"]));
    ("lead", (LeadSection, ["type"; "text"]));
    ("title", (TitleSection, ["type"; "text"]));
    ("header", (HeaderSection, ["type"; "level"; "text"])) ]%string.

Fixpoint mapper_get (s : string) (m : list (string * (SectionType * list string)))
  : option (SectionType * list string) :=
  match m with
  | [] => None
  | (k, v) :: m' => if String.eqb s k then Some v else mapper_get s m'
  end.

(** [Article._map_section(stype)] is [mapper.get(stype)]: [None] for a key
    that is not in the table, [TypeError] for a key that cannot be hashed. *)
Definition _map_section (stype : json) : result (option (SectionType * list string)) :=
  if hashable stype then
    Ok (match stype with
        | JStr s => mapper_get s mapper
        | _ => None
        end)
  else Raise TypeError.

(** [s_type["section_type"]] and [s_type["fields"]]: [None] cannot be
    subscripted. *)
Definition section_info (s_type : option (SectionType * list string))
  : result (SectionType * list string) :=
  match s_type with
  | Some i => Ok i
  | None => Raise TypeError
  end.

(** [SectionType in [MediaSection, ImageSection]]. *)
Definition is_media_class (c : SectionType) : bool :=
  match c with
  | MediaSection | ImageSection => true
  | _ => false
  end.

(** The media index [image_media_data]: media id to media record, the last
    record of an id winning. *)
Definition index := list (json * dict).

Fixpoint index_get (k : json) (idx : index) : option dict :=
  match idx with
  | [] => None
  | (k', v) :: idx' =>
      match index_get k idx' with
      | Some w => Some w
      | None => if py_eqb k k' then Some v else None
      end
  end.

(** [image_media_data[k]]. *)
Definition index_subscript (idx : index) (k : json) : result dict :=
  if hashable k then
    match index_get k idx with
    | Some v => Ok v
    | None => Raise KeyError
    end
  else Raise TypeError.

(** The loop [for media in media_data: image_media_data[media["id"]] = media]. *)
Fixpoint index_media (media_data : list json) (image_media_data : index)
  : result index :=
  match media_data with
  | [] => Ok image_media_data
  | media :: rest =>
      match media with
      | JObj d =>
          match dict_get "id" d with
          | Some k =>
              if hashable k then index_media rest (image_media_data ++ [(k, d)])
              else Raise TypeError
          | None => Raise KeyError
          end
      | _ => Raise TypeError
      end
  end.

(** [set(cat)]: the distinct elements of an iterable of hashable values. *)
Definition py_set_add (s : list json) (x : json) : list json :=
  if existsb (py_eqb x) s then s else s ++ [x].

Definition py_set (cat : json) : result (list json) :=
  try l <- py_iter cat;
  if forallb hashable l then Ok (fold_left py_set_add l []) else Raise TypeError.

Section Pipeline.

Context {P : Platform}.
Local Open Scope io_scope.

(** [Template.substitute(article_id=...)] on the two URL templates. *)
Definition substitute (template : string) (article_id : json) : string :=
  (template
   ++ match article_id with
      | JStr s => s
      | other => py_str other
      end
   ++ ".json")%string.

(** util.py, [fetch]. A failure of [session.get] or [raise_for_status]
    is caught and gives [None]; [response.json()] runs in the [else]
    clause of the [try], where nothing catches what it raises. *)
Definition fetch (url : string) : M json :=
  fun w =>
    let w' := mkWorld (url :: requests w) (printed w) in
    match net (length (requests w)) url with
    | TransportError => (Ok JNull, w')
    | BadStatus => (Ok JNull, w')
    | BadBody => (Raise JSONError, w')
    | Body j => (Ok j, w')
    end.

(** [Article._fetch_media_details]. *)
Definition _fetch_media_details (article_id : json) : M (option index) :=
  let url := substitute BASE_MEDIA_URL article_id in
  media_data <- fetch url ;;
  match media_data with
  | JNull => ret None
  | _ =>
      lift (try l <- py_iter media_data;
            try image_media_data <- index_media l [];
            Ok (Some image_media_data))
  end.

(** One round of the loop over [s_type["fields"]]. *)
Definition fill_field (header : dict) (field : string) : result (string * pyval) :=
  if String.eqb field "publication_date" then
    try pub <- subscript (JObj header) "pub_date";
    try dt <- to_datetime pub ";";
    Ok ("publication_date"%string, VDatetime dt)
  else Ok (field, VJson (py_get field header)).

Fixpoint fill_fields (fields : list string) (header : dict) : result kwargs :=
  match fields with
  | [] => Ok []
  | field :: fields' =>
      try x <- fill_field header field;
      try xs <- fill_fields fields' header;
      Ok (x :: xs)
  end.

(** The constructor call of the section class on [section_data]. *)
Definition construct (cls : SectionType) (section_data : kwargs) : result section :=
  match validate_section cls section_data with
  | Some fs => Ok (mkSection cls fs)
  | None => Raise ValidationError
  end.

(** The end of the loop body: fill [section_data], build the section. *)
Definition build_section (info : SectionType * list string) (header : dict)
  : result section :=
  try section_data <- fill_fields (snd info) header;
  construct (fst info) section_data.

(** [image_media_data == {}]. *)
Definition is_empty_dict (image_media_data : option index) : bool :=
  match image_media_data with
  | Some [] => true
  | _ => false
  end.

(** The loop of [Article._extract_sections], with its two variables
    [sections] and [image_media_data]. *)
Fixpoint sections_loop (article_id : json) (section_headers : list json)
    (sections : list section) (image_media_data : option index)
  : M (list section) :=
  match section_headers with
  | [] => ret sections
  | JObj header :: rest =>
      s_type <- lift (subscript (JObj header) "type") ;;
      s_type <- lift (_map_section s_type) ;;
      info <- lift (section_info s_type) ;;
      if is_media_class (fst info) then
        image_media_data <-
          (if is_empty_dict image_media_data
           then _fetch_media_details article_id
           else ret image_media_data) ;;
        match image_media_data with
        | None => sections_loop article_id rest sections None
        | Some idx =>
            val <- lift (index_subscript idx (py_get "id" header)) ;;
            let header := dict_update header val in
            s_type <- lift (subscript (JObj header) "type") ;;
            s_type <- lift (_map_section s_type) ;;
            info <- lift (section_info s_type) ;;
            section <- lift (build_section info header) ;;
            sections_loop article_id rest (sections ++ [section]) (Some idx)
        end
      else
        section <- lift (build_section info header) ;;
        sections_loop article_id rest (sections ++ [section]) image_media_data
  | _ :: _ => raise TypeError
  end.

(** [Article._extract_sections]. *)
Definition _extract_sections (section_headers : json) (article_id : json)
  : M (list section) :=
  headers <- lift (py_iter section_headers) ;;
  sections_loop article_id headers [] (Some []).

(** [set(cat) if cat else cat]. *)
Definition set_or_self (cat : json) : result pyval :=
  if truthy cat then (try s <- py_set cat; Ok (VSet s)) else Ok (VJson cat).

(** [Article._extract_details]. *)
Definition _extract_details (response : json) : M detail :=
  match response with
  | JObj r =>
      id <- lift (subscript response "id") ;;
      original_language <- lift (subscript response "original_language") ;;
      let url := substitute ARTICLE_DETAIL_URL id in
      let thumbnail := py_get "thumbnail" r in
      categories <- lift (set_or_self (py_get "category" r)) ;;
      tags <- lift (set_or_self (py_get "tag" r)) ;;
      let author := py_get "author" r in
      pub <- lift (subscript response "pub_date") ;;
      publication_date <- lift (to_datetime pub ";") ;;
      let mod_date :=
        match dict_get "mod_date" r with
        | Some v => v
        | None => JStr (Iso.isoformat now)
        end in
      modification_date <- lift (to_datetime mod_date ":") ;;
      sections <- _extract_sections (py_get "sections" r) id ;;
      ret (mkDetail id original_language url thumbnail categories tags author
                    publication_date modification_date sections)
  | _ => raise TypeError
  end.

(** [print(article)]. *)
Definition print (article : detail) : M unit :=
  fun w =>
    match render article with
    | Some text => (Ok tt, mkWorld (requests w) (text :: printed w))
    | None => (Raise TypeError, w)
    end.

(** [Article.details]. *)
Definition details (heading : json) : M unit :=
  id <- lift (subscript heading "id") ;;
  let url := substitute ARTICLE_DETAIL_URL id in
  response <- fetch url ;;
  match response with
  | JNull => ret tt
  | _ =>
      detail <- _extract_details response ;;
      article <- lift (match validate_article detail with
                       | Some a => Ok a
                       | None => Raise ValidationError
                       end) ;;
      print article
  end.

End Pipeline.

(* ================================================================== *)
(** ** Reading an instant off a text *)

(** [matched p caps s]: the text [s] is, item by item, an instance of the
    pattern [p], with the groups [caps] captured by its directives. *)
Inductive matched : list Strptime.item -> list (list ascii) -> list ascii -> Prop :=
| matched_nil : matched [] [] []
| matched_lit l p caps s :
    matched p caps s ->
    matched (Strptime.Lit l :: p) caps (l ++ s)
| matched_dir alts a t p caps s :
    In a alts ->
    Forall2 (fun (c : Strptime.cls) x => c x = true) a t ->
    matched p caps s ->
    matched (Strptime.Dir alts :: p) (t :: caps) (t ++ s).

(** A captured group of one or two digits. *)
Definition numeral (t : list ascii) : Prop :=
  (1 <= length t <= 2)%nat /\ forallb Strptime.digit t = true.

(** The group of the day: one or two digits, or a blank and a digit. *)
Definition day_numeral (t : list ascii) : Prop :=
  numeral t \/ exists c, t = [" "%char; c] /\ Strptime.digit c = true.

(** [parses_as s sep dt]: the text [s] spells the fields of [dt] in the
    order year, month, day, hour, minute, second, the date fields joined by
    [-] and the time fields by [sep], and [dt] is an instant that exists. *)
Definition parses_as (s sep : list ascii) (dt : datetime) : Prop :=
  exists ty tm td tH tM tS : list ascii,
    s = ty ++ "-"%char :: tm ++ "-"%char :: td ++ "-"%char :: tH
           ++ sep ++ tM ++ sep ++ tS
    /\ length ty = 4%nat
    /\ forallb Strptime.digit ty = true
    /\ numeral tm /\ day_numeral td /\ numeral tH /\ numeral tM /\ numeral tS
    /\ dt = mkDatetime (Strptime.int_of ty) (Strptime.int_of tm)
                       (Strptime.int_of td) (Strptime.int_of tH)
                       (Strptime.int_of tM) (Strptime.int_of tS) 0
    /\ datetime_ok dt = true.

(** Number of occurrences of a character. *)
Definition occurrences (c : ascii) (s : list ascii) : nat :=
  count_occ ascii_dec s c.

(* ================================================================== *)
(** ** What one descriptor contributes *)

(** The six discriminators of [Article._map_section]. *)
Definition known_type (stype : json) : bool :=
  match stype with
  | JStr s =>
      existsb (String.eqb s)
        ["text"; "media"; "image"; "lead"; "title"; "header"]%string
  | _ => false
  end.

(** The class a raw descriptor names by its [type] field. *)
Definition descriptor_class (header : json) : option SectionType :=
  match header with
  | JObj d =>
      match dict_get "type" d with
      | Some (JStr s) => option_map fst (mapper_get s mapper)
      | _ => None
      end
  | _ => None
  end.

(** A raw descriptor of type [image] or [media]. *)
Definition is_media_descriptor (header : json) : bool :=
  match descriptor_class header with
  | Some c => is_media_class c
  | None => false
  end.

(** Run [f] on every element in order, keep the [Some] answers, stop at
    the first exception. *)
Fixpoint collect {A B} (f : A -> result (option B)) (l : list A) : result (list B) :=
  match l with
  | [] => Ok []
  | a :: l' =>
      try o <- f a;
      try rest <- collect f l';
      Ok (match o with Some b => b :: rest | None => rest end)
  end.


Section Outcomes.

Context {P : Platform}.

(** The loop body of [Article._extract_sections] for one descriptor, as a
    function of what [_fetch_media_details] answers when it is asked:
    [Ok (Some s)] for a section built, [Ok None] for a descriptor
    skipped, [Raise e] for an exception. *)
Definition map_header (media : result (option index)) (header : json)
  : result (option section) :=
  match header with
  | JObj header =>
      try s_type <- subscript (JObj header) "type";
      try s_type <- _map_section s_type;
      try info <- section_info s_type;
      if is_media_class (fst info) then
        try image_media_data <- media;
        match image_media_data with
        | None => Ok None
        | Some idx =>
            try val <- index_subscript idx (py_get "id" header);
            let header := dict_update header val in
            try s_type <- subscript (JObj header) "type";
            try s_type <- _map_section s_type;
            try info <- section_info s_type;
            try section <- build_section info header;
            Ok (Some section)
        end
      else
        try section <- build_section info header;
        Ok (Some section)
  | _ => Raise TypeError
  end.

End Outcomes.

(* ================================================================== *)
(** ** A platform and payloads for the examples *)

Module Demo.

Local Open Scope string_scope.

(** The media listing of article [a1] and its index. *)
Definition record_m1 : dict :=
  [("id", JStr "m1"); ("type", JStr "image");
   ("url", JStr "https://x/y.jpg"); ("alt", JStr "A")].

Definition media_a1 : json := JArr [JObj record_m1].


(** A media listing whose only record has a null id. *)
Definition media_a2 : json :=
  JArr [JObj [("id", JNull); ("type", JStr "image");
              ("url", JStr "https://x/y.jpg")]].

Definition media_url (article : string) : string :=
  BASE_MEDIA_URL ++ article ++ ".json".

Definition detail_url (article : string) : string :=
  ARTICLE_DETAIL_URL ++ article ++ ".json".

(** A network that serves the two media listings, answers the detail of
    [a3] with a body that is not JSON and refuses everything else; a
    validator that accepts every section and every article. *)
#[export] Instance platform : Platform := {|
  net := fun _ url =>
    if String.eqb url (media_url "a1") then Body media_a1
    else if String.eqb url (media_url "a2") then Body media_a2
    else if String.eqb url (detail_url "a3") then BadBody
    else BadStatus;
  now := mkDatetime 2026 11 4 13 35 7 0;
  py_str := fun _ => "";
  validate_section := fun _ data => Some data;
  validate_article := fun d => Some d;
  render := fun _ => Some ""
|}.

Definition w0 : world := mkWorld [] [].

Definition title_T : json := JObj [("type", JStr "title"); ("text", JStr "T")].
Definition text_y : json := JObj [("type", JStr "text"); ("text", JStr "y")].
Definition image_m1 : json := JObj [("type", JStr "image"); ("id", JStr "m1")].
Definition quote_x : json := JObj [("type", JStr "quote"); ("text", JStr "x")].

(** A detail payload without [mod_date]. *)
Definition payload_no_mod_date : dict :=
  [("id", JStr "a1"); ("original_language", JStr "en");
   ("pub_date", JStr "2020-07-08-20;50;43"); ("sections", JArr [])].


(** A detail payload with empty [category] and [tag] lists. *)
Definition payload_empty_lists : dict :=
  [("id", JStr "a1"); ("original_language", JStr "en");
   ("category", JArr []); ("tag", JArr []);
   ("pub_date", JStr "2020-07-08-20;50;43");
   ("mod_date", JStr "2020-07-09-10:00:00"); ("sections", JArr [])].

End Demo.

(* ================================================================== *)
(** ** Definitions for further properties of the code *)

(** The zero-padded text of an instant in the format of [to_datetime]:
    four digits of year, two of every other field. *)
Definition canonical_text (sep : list ascii) (dt : datetime) : list ascii :=
  Iso.pad4 (year dt) ++ "-"%char :: Iso.pad2 (month dt)
  ++ "-"%char :: Iso.pad2 (day dt) ++ "-"%char :: Iso.pad2 (hour dt)
  ++ sep ++ Iso.pad2 (minute dt) ++ sep ++ Iso.pad2 (second dt).

(** [probe alts t]: the first alternative of [alts] that matches at the
    start of [t] matches the whole of [t]. *)
Fixpoint probe (alts : list (list Strptime.cls)) (t : list ascii) : bool :=
  match alts with
  | [] => false
  | a :: alts' =>
      match Strptime.match_alt a t with
      | Some (_, []) => true
      | Some (_, _ :: _) => false
      | None => probe alts' t
      end
  end.

(** The group [t] is taken whole by the directive and spells [v]. *)
Definition group_ok (alts : list (list Strptime.cls)) (t : list ascii) (v : Z) : bool :=
  probe alts t && (Strptime.int_of t =? v).

(** The integers [lo], [lo + 1], ..., [lo + n - 1]. *)
Definition zrange (lo : Z) (n : nat) : list Z :=
  map (fun i => lo + Z.of_nat i) (seq 0 n).

(** An outcome on which [fetch] answers [None]. *)
Definition fetch_fails (o : http_outcome) : bool :=
  match o with
  | TransportError | BadStatus | Body JNull => true
  | _ => false
  end.

(** A media record that the loop of [_fetch_media_details] cannot index:
    not a dict, without [id], or with an [id] that cannot be hashed. *)
Definition bad_record (media : json) : bool :=
  match media with
  | JObj d =>
      match dict_get "id" d with
      | Some k => negb (hashable k)
      | None => true
      end
  | _ => true
  end.

(** No two elements are equal as Python values. *)
Definition py_distinct (s : list json) : Prop :=
  ForallOrdPairs (fun a b => py_eqb a b = false) s.

(** The keyword arguments of a class without [publication_date]: every
    field read with [header.get]. *)
Definition plain_data (fields : list string) (header : dict) : kwargs :=
  map (fun field => (field, VJson (py_get field header))) fields.

(** ** A second platform for the examples *)

Module Demo2.

Local Open Scope string_scope.

(** The media listing of article [b1]: a video without [pub_date], and two
    records for the id [v2], the second with a [pub_date]. *)
Definition record_v1 : dict :=
  [("id", JStr "v1"); ("type", JStr "media"); ("url", JStr "https://x/v1.mp4")].

Definition record_v2_old : dict :=
  [("id", JStr "v2"); ("type", JStr "image"); ("url", JStr "https://x/old.jpg")].

Definition record_v2 : dict :=
  [("id", JStr "v2"); ("type", JStr "media"); ("url", JStr "https://x/v2.mp4");
   ("pub_date", JStr "2020-07-08-20;50;43")].

Definition media_b1 : list json :=
  [JObj record_v1; JObj record_v2_old; JObj record_v2].

Definition index_b1 : index :=
  [(JStr "v1", record_v1); (JStr "v2", record_v2_old); (JStr "v2", record_v2)].

(** The media listing of article [b2]: a record without [id]. *)
Definition media_b2 : list json :=
  [JObj [("type", JStr "image"); ("url", JStr "https://x/y.jpg")]].

Definition title_T : json := JObj [("type", JStr "title"); ("text", JStr "T")].
Definition header_H : json :=
  JObj [("type", JStr "header"); ("level", JInt 2); ("text", JStr "H")].
Definition lead_only : dict := [("type", JStr "lead")].
Definition media_v1 : json := JObj [("type", JStr "media"); ("id", JStr "v1")].
Definition media_v2 : json := JObj [("type", JStr "media"); ("id", JStr "v2")].

(** The detail payload of article [b1]. *)
Definition payload_b1 : dict :=
  [("id", JStr "b1"); ("original_language", JStr "en");
   ("category", JArr [JStr "news"; JStr "local"; JStr "news"]);
   ("pub_date", JStr "2020-07-08-20;50;43");
   ("mod_date", JStr "2020-07-09-10:00:00");
   ("sections", JArr [title_T; media_v2])].

(** A network that serves the detail and the media listing of [b1] and the
    media listing of [b2], and refuses everything else; a validator that
    accepts every section and every article; a rendering that writes the
    url of the article. *)
#[export] Instance platform : Platform := {|
  net := fun _ url =>
    if String.eqb url (ARTICLE_DETAIL_URL ++ "b1.json") then Body (JObj payload_b1)
    else if String.eqb url (BASE_MEDIA_URL ++ "b1.json") then Body (JArr media_b1)
    else if String.eqb url (BASE_MEDIA_URL ++ "b2.json") then Body (JArr media_b2)
    else BadStatus;
  now := mkDatetime 2026 11 4 13 35 7 0;
  py_str := fun _ => "";
  validate_section := fun _ data => Some data;
  validate_article := fun d => Some d;
  render := fun d => Some (d_url d)
|}.

Definition w0 : world := mkWorld [] [].

End Demo2.

(* ================================================================== *)
(** ** Properties of [to_datetime] *)

Module StrptimeFacts.
Import Strptime.

Lemma match_alt_sound a : forall s t r,
  match_alt a s = Some (t, r) ->
  s = t ++ r /\ Forall2 (fun (c : cls) x => c x = true) a t.
Proof.
  induction a as [|c a IH]; intros s t r; simpl.
  - intros [= <- <-]. split; [reflexivity | constructor].
  - destruct s as [|x s']; [discriminate|].
    destruct (c x) eqn:Hc; [|discriminate].
    destruct (match_alt a s') as [[t' r']|] eqn:Hm; [|discriminate].
    intros [= <- <-]. destruct (IH _ _ _ Hm) as [-> HF].
    split; [reflexivity | constructor; assumption].
Qed.

Lemma strip_prefix_sound l : forall s r,
  strip_prefix l s = Some r -> s = l ++ r.
Proof.
  induction l as [|c l IH]; intros s r; simpl.
  - now intros [= ->].
  - destruct s as [|x s']; [discriminate|].
    destruct (Ascii.eqb x c) eqn:E; [|discriminate].
    apply Ascii.eqb_eq in E. subst x. intros H. now rewrite (IH _ _ H).
Qed.

Lemma first_some_In {A B} (f : A -> option B) l b :
  first_some f l = Some b -> exists a, In a l /\ f a = Some b.
Proof.
  induction l as [|a l IH]; simpl; [discriminate|].
  destruct (f a) eqn:E.
  - intros [= ->]. exists a. auto.
  - intros H. destruct (IH H) as (a' & Hin & Ha'). exists a'. auto.
Qed.

Lemma match_items_sound p : forall s caps rest,
  match_items p s = Some (caps, rest) ->
  exists s0, s = s0 ++ rest /\ matched p caps s0.
Proof.
  induction p as [|[l|alts] p IH]; intros s caps rest; simpl.
  - intros [= <- <-]. exists []. split; [reflexivity | constructor].
  - destruct (strip_prefix l s) as [r|] eqn:E; [|discriminate].
    intros H. apply strip_prefix_sound in E. subst s.
    destruct (IH _ _ _ H) as (s0 & -> & Hm).
    exists (l ++ s0). split; [now rewrite app_assoc | now constructor].
  - intros H. apply first_some_In in H. destruct H as (a & Hin & H).
    destruct (match_alt a s) as [[t r]|] eqn:Ea; [|discriminate].
    destruct (match_items p r) as [[caps' rest']|] eqn:Ep; [|discriminate].
    injection H as <- <-.
    apply match_alt_sound in Ea. destruct Ea as [-> HF].
    destruct (IH _ _ _ Ep) as (s0 & -> & Hm).
    exists (t ++ s0). split; [now rewrite app_assoc | now econstructor; eauto].
Qed.

Lemma in_range_digit lo hi x :
  (48 <= nat_of_ascii lo)%nat -> (nat_of_ascii hi <= 57)%nat ->
  in_range lo hi x = true -> digit x = true.
Proof.
  unfold digit, in_range. intros Hlo Hhi H.
  apply andb_true_iff in H. destruct H as [H1 H2].
  apply Nat.leb_le in H1, H2.
  change (nat_of_ascii "0") with 48%nat.
  change (nat_of_ascii "9") with 57%nat.
  apply andb_true_iff. split; apply Nat.leb_le; lia.
Qed.

Lemma is_char_digit y x :
  digit y = true -> is_char y x = true -> digit x = true.
Proof.
  unfold is_char at 1. intros Hy H. apply Ascii.eqb_eq in H. now subst.
Qed.

Ltac class_ok :=
  first [ eapply in_range_digit; [ | | eassumption]; apply Nat.leb_le; reflexivity
        | eapply is_char_digit; [ | eassumption]; reflexivity ].

Ltac invert_groups :=
  repeat match goal with
    | H : In _ (_ :: _) |- _ => destruct H as [<- | H]
    | H : In _ [] |- _ => destruct H
    | H : Forall2 _ (_ :: _) _ |- _ => inversion H; subst; clear H
    | H : Forall2 _ [] _ |- _ => inversion H; subst; clear H
    end.

Ltac digits_ok :=
  split; [simpl; lia |];
  apply forallb_forall;
  let x := fresh "x" in
  let Hx := fresh "Hx" in
  intros x Hx; simpl in Hx;
  repeat (destruct Hx as [<- | Hx]); try destruct Hx; class_ok.

Lemma year_group alts a t :
  Dir alts = dir_Y -> In a alts ->
  Forall2 (fun (c : cls) x => c x = true) a t ->
  length t = 4%nat /\ forallb digit t = true.
Proof.
  intros [= ->] Hin HF. invert_groups.
  split; [reflexivity|]. simpl.
  repeat match goal with H : digit _ = true |- _ => rewrite H; clear H end.
  reflexivity.
Qed.

Lemma field_group alts a t :
  In (Dir alts) [dir_m; dir_H; dir_M; dir_S] -> In a alts ->
  Forall2 (fun (c : cls) x => c x = true) a t ->
  numeral t.
Proof.
  intros Hd Hin HF.
  repeat (destruct Hd as [[= <-] | Hd]); try destruct Hd;
    invert_groups; digits_ok.
Qed.

Lemma day_group alts a t :
  Dir alts = dir_d -> In a alts ->
  Forall2 (fun (c : cls) x => c x = true) a t ->
  day_numeral t.
Proof.
  intros [= ->] Hin HF. invert_groups.
  1-4: left; digits_ok.
  right. eexists. split.
  - match goal with
    | H : is_char " " ?y = true |- _ =>
        unfold is_char in H; apply Ascii.eqb_eq in H; subst y
    end.
    reflexivity.
  - class_ok.
Qed.

(** Whatever [strptime] returns is read off the text. *)
Lemma strptime_sound s sep dt :
  strptime s sep = Ok dt -> parses_as s sep dt.
Proof.
  unfold strptime.
  destruct (match_items (format sep) s) as [[caps rest]|] eqn:Hm; [|discriminate].
  destruct rest; [|discriminate].
  destruct caps as [|ty [|tm [|td [|tH [|tM [|tS [|? ?]]]]]]]; try discriminate.
  destruct (datetime_ok _) eqn:Hok; [|discriminate].
  intros [= <-].
  apply match_items_sound in Hm. destruct Hm as (s0 & -> & Hm).
  rewrite app_nil_r. unfold format in Hm.
  repeat match goal with
    | H : matched (_ :: _) _ _ |- _ => inversion H; subst; clear H
    | H : matched [] _ _ |- _ => inversion H; subst; clear H
    end.
  exists ty, tm, td, tH, tM, tS.
  match goal with
  | H1 : In ?a ?alts, H2 : Forall2 _ ?a ty |- _ =>
      destruct (year_group alts a ty eq_refl H1 H2); clear H1 H2
  end.
  match goal with
  | H1 : In ?a ?alts, H2 : Forall2 _ ?a td |- _ =>
      pose proof (day_group alts a td eq_refl H1 H2); clear H1 H2
  end.
  repeat match goal with
    | H1 : In ?a ?alts, H2 : Forall2 _ ?a ?t |- _ =>
        assert (numeral t)
          by (apply (field_group alts a t); [simpl; tauto | exact H1 | exact H2]);
        clear H1 H2
    end.
  rewrite app_nil_r. simpl.
  repeat rewrite <- app_assoc. simpl.
  repeat match goal with |- _ /\ _ => split end;
    solve [assumption | reflexivity].
Qed.

End StrptimeFacts.

(* ================================================================== *)
(** ** [isoformat] against the format of [to_datetime] *)

Module IsoFacts.
Import Strptime.

Lemma strptime_raises s sep e : strptime s sep = Raise e -> e = ValueError.
Proof.
  unfold strptime.
  destruct (match_items (format sep) s) as [[caps rest]|]; [|congruence].
  destruct rest; [|congruence].
  destruct caps as [|ty [|tm [|td [|tH [|tM [|tS [|? ?]]]]]]]; try congruence.
  destruct (datetime_ok _); congruence.
Qed.

Lemma occurrences_app c s t :
  occurrences c (s ++ t) = (occurrences c s + occurrences c t)%nat.
Proof. apply count_occ_app. Qed.

Lemma occurrences_cons_eq c s : occurrences c (c :: s) = S (occurrences c s).
Proof. unfold occurrences. now apply count_occ_cons_eq. Qed.

(** A text that [to_datetime] accepts has three dashes at least. *)
Lemma parses_dashes s sep dt :
  parses_as s sep dt -> (3 <= occurrences "-" s)%nat.
Proof.
  intros (ty & tm & td & tH & tM & tS & -> & _).
  repeat (rewrite ?occurrences_app, ?occurrences_cons_eq). lia.
Qed.

Lemma digit_char_not_dash n : Iso.digit_char n <> "-"%char.
Proof.
  unfold Iso.digit_char. intros H.
  apply (f_equal nat_of_ascii) in H.
  assert (0 <= n mod 10 < 10) as Hn by (apply Z.mod_pos_bound; lia).
  rewrite nat_ascii_embedding in H by lia.
  change (nat_of_ascii "-") with 45%nat in H. lia.
Qed.

Lemma pad2_dashes n : occurrences "-" (Iso.pad2 n) = 0%nat.
Proof.
  unfold occurrences, Iso.pad2.
  rewrite !count_occ_cons_neq by apply digit_char_not_dash. reflexivity.
Qed.

Lemma pad4_dashes n : occurrences "-" (Iso.pad4 n) = 0%nat.
Proof. unfold Iso.pad4. now rewrite occurrences_app, !pad2_dashes. Qed.

Lemma pad6_dashes n : occurrences "-" (Iso.pad6 n) = 0%nat.
Proof. unfold Iso.pad6. now rewrite occurrences_app, pad2_dashes, pad4_dashes. Qed.

Lemma occurrences_cons_neq c x s :
  x <> c -> occurrences c (x :: s) = occurrences c s.
Proof. unfold occurrences. now apply count_occ_cons_neq. Qed.

(** The text of [isoformat] has exactly two. *)
Lemma iso_dashes dt : occurrences "-" (Iso.chars dt) = 2%nat.
Proof.
  unfold Iso.chars.
  repeat first
    [ rewrite occurrences_app
    | rewrite occurrences_cons_eq
    | rewrite occurrences_cons_neq by discriminate
    | rewrite pad2_dashes
    | rewrite pad4_dashes ].
  destruct (microsecond dt =? 0).
  - reflexivity.
  - rewrite occurrences_cons_neq by discriminate. now rewrite pad6_dashes.
Qed.

Example isoformat_example :
  Iso.isoformat (mkDatetime 2020 7 8 20 50 43 0) = "2020-07-08T20:50:43"%string
  /\ Iso.isoformat (mkDatetime 2020 7 8 20 50 43 120)
     = "2020-07-08T20:50:43.000120"%string.
Proof. split; reflexivity. Qed.

(** So [to_datetime] refuses what [isoformat] writes, whatever the
    separator. *)
Lemma isoformat_rejected dt sep :
  to_datetime (JStr (Iso.isoformat dt)) sep = Raise ValueError.
Proof.
  unfold to_datetime, Iso.isoformat.
  rewrite list_ascii_of_string_of_list_ascii.
  destruct (strptime (Iso.chars dt) (list_ascii_of_string sep)) as [dt'|e] eqn:E.
  - apply StrptimeFacts.strptime_sound in E. apply parses_dashes in E.
    rewrite iso_dashes in E. lia.
  - now rewrite (strptime_raises _ _ _ E).
Qed.

End IsoFacts.

(* ================================================================== *)
(** ** The loop of [_extract_sections] *)

Section LoopFacts.

Context {P : Platform}.
Local Open Scope io_scope.

Lemma bind_lift {A B} (r : result A) (k : A -> M B) w :
  bind (lift r) k w = match r with Ok a => k a w | Raise e => (Raise e, w) end.
Proof. unfold bind, lift. now destruct r. Qed.

Lemma bind_ret {A B} (a : A) (k : A -> M B) w : bind (ret a) k w = k a w.
Proof. reflexivity. Qed.

Lemma index_subscript_nonempty idx k v :
  index_subscript idx k = Ok v -> is_empty_dict (Some idx) = false.
Proof.
  unfold index_subscript. destruct (hashable k); [|discriminate].
  destruct idx; [discriminate | reflexivity].
Qed.

(** Once [image_media_data] is [None] or a non-empty index, the loop asks
    the network nothing and maps every descriptor with that index. *)
Lemma loop_settled article_id hs : forall sections midx w,
  is_empty_dict midx = false ->
  sections_loop article_id hs sections midx w
  = (try l <- collect (map_header (Ok midx)) hs; Ok (sections ++ l), w).
Proof.
  induction hs as [|h hs IH]; intros sections midx w Hne.
  - simpl. now rewrite app_nil_r.
  - destruct h as [| | | | |header]; try reflexivity.
    cbn [sections_loop collect map_header].
    rewrite bind_lift.
    destruct (subscript (JObj header) "type") as [t|e]; [|reflexivity].
    cbn [rbind]. rewrite bind_lift.
    destruct (_map_section t) as [s|e]; [|reflexivity].
    cbn [rbind]. rewrite bind_lift.
    destruct (section_info s) as [info|e]; [|reflexivity].
    cbn [rbind].
    destruct (is_media_class (fst info)).
    + rewrite Hne. rewrite bind_ret. cbn [rbind].
      destruct midx as [idx|].
      * rewrite bind_lift.
        destruct (index_subscript idx (py_get "id" header)) as [val|e];
          [|reflexivity].
        cbn [rbind]. rewrite bind_lift.
        destruct (subscript (JObj (dict_update header val)) "type") as [t'|e];
          [|reflexivity].
        cbn [rbind]. rewrite bind_lift.
        destruct (_map_section t') as [s'|e]; [|reflexivity].
        cbn [rbind]. rewrite bind_lift.
        destruct (section_info s') as [info'|e]; [|reflexivity].
        cbn [rbind]. rewrite bind_lift.
        destruct (build_section info' (dict_update header val)) as [sec|e];
          [|reflexivity].
        cbn [rbind]. rewrite IH by assumption.
        destruct (collect _ hs) as [l|e]; [|reflexivity].
        cbn [rbind]. now rewrite <- app_assoc.
      * rewrite IH by reflexivity.
        destruct (collect _ hs) as [l|e]; reflexivity.
    + rewrite bind_lift.
      destruct (build_section info header) as [sec|e]; [|reflexivity].
      cbn [rbind]. rewrite IH by assumption.
      destruct (collect _ hs) as [l|e]; [|reflexivity].
      cbn [rbind]. now rewrite <- app_assoc.
Qed.

Lemma fetch_world url w :
  snd (fetch url w) = mkWorld (url :: requests w) (printed w).
Proof. unfold fetch. now destruct (net _ _). Qed.

Lemma fetch_media_world article_id w :
  snd (_fetch_media_details article_id w)
  = mkWorld (substitute BASE_MEDIA_URL article_id :: requests w) (printed w).
Proof.
  unfold _fetch_media_details, bind.
  pose proof (fetch_world (substitute BASE_MEDIA_URL article_id) w) as Hw.
  destruct (fetch _ w) as [[j|e] w1]; simpl in Hw; subst w1; [|reflexivity].
  now destruct j.
Qed.

(** From the initial [image_media_data = {}], the loop maps every
    descriptor with the answer [_fetch_media_details] gives in the world
    the loop starts in, and asks for it at most once. *)
Lemma loop_fresh article_id hs : forall sections w,
  exists w',
    sections_loop article_id hs sections (Some []) w
    = (try l <- collect (map_header (fst (_fetch_media_details article_id w))) hs;
       Ok (sections ++ l), w')
    /\ (w' = w \/ w' = snd (_fetch_media_details article_id w)).
Proof.
  induction hs as [|h hs IH]; intros sections w.
  - exists w. simpl. rewrite app_nil_r. auto.
  - destruct h as [| | | | |header]; try (exists w; simpl; auto; fail).
    cbn [sections_loop collect map_header].
    rewrite bind_lift.
    destruct (subscript (JObj header) "type") as [t|e]; [|exists w; auto].
    cbn [rbind]. rewrite bind_lift.
    destruct (_map_section t) as [s|e]; [|exists w; auto].
    cbn [rbind]. rewrite bind_lift.
    destruct (section_info s) as [info|e]; [|exists w; auto].
    cbn [rbind].
    destruct (is_media_class (fst info)).
    + cbn [is_empty_dict]. unfold bind at 1.
      destruct (_fetch_media_details article_id w) as [[midx|e] w1];
        [|exists w1; auto].
      cbn [fst snd rbind]. exists w1.
      destruct midx as [idx|].
      * rewrite bind_lift.
        destruct (index_subscript idx (py_get "id" header)) as [val|e] eqn:Hval;
          [|auto].
        apply index_subscript_nonempty in Hval.
        cbn [rbind]. rewrite bind_lift.
        destruct (subscript (JObj (dict_update header val)) "type") as [t'|e];
          [|auto].
        cbn [rbind]. rewrite bind_lift.
        destruct (_map_section t') as [s'|e]; [|auto].
        cbn [rbind]. rewrite bind_lift.
        destruct (section_info s') as [info'|e]; [|auto].
        cbn [rbind]. rewrite bind_lift.
        destruct (build_section info' (dict_update header val)) as [sec|e];
          [|auto].
        cbn [rbind]. rewrite loop_settled by assumption.
        destruct (collect _ hs) as [l|e]; [|auto].
        cbn [rbind]. rewrite <- app_assoc. auto.
      * rewrite loop_settled by reflexivity.
        destruct (collect _ hs) as [l|e]; auto.
    + rewrite bind_lift.
      destruct (build_section info header) as [sec|e]; [|exists w; auto].
      cbn [rbind]. destruct (IH (sections ++ [sec]) w) as (w' & IH1 & IH2).
      exists w'. rewrite IH1. split; [|exact IH2].
      destruct (collect _ hs) as [l|e]; [|reflexivity].
      cbn [rbind]. now rewrite <- app_assoc.
Qed.

Lemma extract_sections_result section_headers article_id w :
  fst (_extract_sections section_headers article_id w)
  = (try hs <- py_iter section_headers;
     collect (map_header (fst (_fetch_media_details article_id w))) hs).
Proof.
  unfold _extract_sections. rewrite bind_lift.
  destruct (py_iter section_headers) as [hs|e]; [|reflexivity].
  cbn [rbind]. destruct (loop_fresh article_id hs [] w) as (w' & H & _).
  rewrite H. now destruct (collect _ hs).
Qed.

Lemma extract_sections_world section_headers article_id w :
  snd (_extract_sections section_headers article_id w) = w
  \/ snd (_extract_sections section_headers article_id w)
     = mkWorld (substitute BASE_MEDIA_URL article_id :: requests w) (printed w).
Proof.
  unfold _extract_sections. rewrite bind_lift.
  destruct (py_iter section_headers) as [hs|e]; [|now left].
  rewrite <- fetch_media_world.
  destruct (loop_fresh article_id hs [] w) as (w' & H & Hw).
  now rewrite H.
Qed.

End LoopFacts.

(* ================================================================== *)
(** ** Descriptors, outcomes and [_extract_details] *)

Section PipelineFacts.

Context {P : Platform}.
Local Open Scope io_scope.

Lemma dict_get_update k header val :
  dict_get k (dict_update header val)
  = match dict_get k val with
    | Some v => Some v
    | None => dict_get k header
    end.
Proof.
  unfold dict_update.
  induction header as [|[k' v'] header IH]; simpl.
  - now destruct (dict_get k val).
  - rewrite IH. now destruct (dict_get k val).
Qed.

Lemma py_eqb_hashable a b : py_eqb a b = true -> hashable a = true.
Proof. destruct a, b; simpl; congruence. Qed.

Lemma index_get_hashable k idx v : index_get k idx = Some v -> hashable k = true.
Proof.
  induction idx as [|[k' v'] idx IH]; simpl; [discriminate|].
  destruct (index_get k idx); [auto|].
  destruct (py_eqb k k') eqn:E; [|discriminate].
  intros _. eapply py_eqb_hashable; eassumption.
Qed.

Lemma index_subscript_found idx k v :
  index_get k idx = Some v -> index_subscript idx k = Ok v.
Proof.
  intros H. unfold index_subscript.
  now rewrite (index_get_hashable _ _ _ H), H.
Qed.


(** The class the loop reads off a descriptor is [descriptor_class]. *)
Lemma descriptor_info header t s info :
  subscript (JObj header) "type" = Ok t ->
  _map_section t = Ok s ->
  section_info s = Ok info ->
  descriptor_class (JObj header) = Some (fst info).
Proof.
  unfold subscript, descriptor_class.
  destruct (dict_get "type" header) as [t'|]; [|discriminate].
  intros [= ->]. unfold _map_section, section_info.
  destruct t as [| | |str| |]; cbn [hashable]; try (intros [= <-]; discriminate).
  generalize (mapper_get str mapper). intros m [= <-].
  destruct m as [i|]; [|discriminate].
  now intros [= ->].
Qed.

Lemma media_descriptor_info header :
  is_media_descriptor (JObj header) = true ->
  exists t info,
    subscript (JObj header) "type" = Ok t
    /\ _map_section t = Ok (Some info)
    /\ is_media_class (fst info) = true.
Proof.
  unfold is_media_descriptor, descriptor_class, subscript.
  destruct (dict_get "type" header) as [t|]; [|discriminate].
  destruct t as [| | |str| |]; try discriminate.
  destruct (mapper_get str mapper) as [info|] eqn:Em; [|discriminate].
  cbn [option_map]. intros H. exists (JStr str), info.
  unfold _map_section. cbn [hashable]. rewrite Em. auto.
Qed.

Lemma unknown_type_info t :
  known_type t = false ->
  (try s_type <- _map_section t; section_info s_type) = Raise TypeError.
Proof.
  unfold _map_section. destruct t; simpl; try reflexivity.
  unfold known_type. simpl.
  repeat match goal with
    | |- context [String.eqb ?a ?b] => destruct (String.eqb a b); [discriminate|]
    end.
  reflexivity.
Qed.

Lemma map_header_unknown media header stype :
  dict_get "type" header = Some stype ->
  known_type stype = false ->
  map_header media (JObj header) = Raise TypeError.
Proof.
  intros Ht Hk. pose proof (unknown_type_info _ Hk) as H.
  unfold map_header, subscript. rewrite Ht. cbn [rbind].
  destruct (_map_section stype) as [s|e]; cbn [rbind] in *; [|congruence].
  destruct (section_info s); cbn [rbind]; congruence.
Qed.

(** A descriptor of another type is mapped without the media index. *)
Lemma map_header_plain media media' header :
  is_media_descriptor header = false ->
  map_header media header = map_header media' header.
Proof.
  destruct header as [| | | | |header]; try reflexivity.
  intros H. unfold map_header.
  destruct (subscript (JObj header) "type") as [t|e] eqn:Et; [|reflexivity].
  cbn [rbind].
  destruct (_map_section t) as [s|e] eqn:Es; [|reflexivity].
  cbn [rbind].
  destruct (section_info s) as [info|e] eqn:Ei; [|reflexivity].
  cbn [rbind].
  unfold is_media_descriptor in H.
  rewrite (descriptor_info _ _ _ _ Et Es Ei) in H. now rewrite H.
Qed.

(** Without a media index an [image] or [media] descriptor is skipped. *)
Lemma map_header_skipped header :
  is_media_descriptor header = true -> map_header (Ok None) header = Ok None.
Proof.
  destruct header as [| | | | |header]; try discriminate.
  intros H. destruct (media_descriptor_info _ H) as (t & info & Et & Es & Hc).
  unfold map_header. rewrite Et. cbn [rbind]. rewrite Es. cbn [rbind section_info].
  now rewrite Hc.
Qed.

Lemma build_section_class info header s :
  build_section info header = Ok s -> section_class s = fst info.
Proof.
  unfold build_section, construct.
  destruct (fill_fields (snd info) header); [|discriminate]. cbn [rbind].
  destruct (validate_section _ _); [|discriminate].
  now intros [= <-].
Qed.

(** What is built without a media index is no image and no media. *)
Lemma map_header_no_index_class header s :
  map_header (Ok None) header = Ok (Some s) ->
  is_media_class (section_class s) = false.
Proof.
  destruct header as [| | | | |header]; try discriminate.
  unfold map_header.
  destruct (subscript (JObj header) "type") as [t|e]; [|discriminate].
  cbn [rbind].
  destruct (_map_section t) as [st|e]; [|discriminate].
  cbn [rbind].
  destruct (section_info st) as [info|e]; [|discriminate].
  cbn [rbind].
  destruct (is_media_class (fst info)) eqn:Hc; [discriminate|].
  destruct (build_section info header) as [sec|e] eqn:Hb; [|discriminate].
  cbn [rbind]. intros [= <-].
  now rewrite (build_section_class _ _ _ Hb).
Qed.

Lemma collect_Forall {A B} (f : A -> result (option B)) (Q : B -> Prop) l :
  (forall a b, f a = Ok (Some b) -> Q b) ->
  forall bs, collect f l = Ok bs -> Forall Q bs.
Proof.
  intros HQ. induction l as [|a l IH]; simpl.
  - intros bs [= <-]. constructor.
  - destruct (f a) as [o|e] eqn:Ea; [|discriminate]. cbn [rbind].
    destruct (collect f l) as [rest|e]; [|discriminate]. cbn [rbind].
    intros bs [= <-]. destruct o as [b|]; auto.
    constructor; eauto.
Qed.


(** [collect] raises as soon as one element does. *)
Lemma collect_raises {A B} (f : A -> result (option B)) l a e :
  In a l -> f a = Raise e -> exists e', collect f l = Raise e'.
Proof.
  intros Hin Ha. induction l as [|x l IH]; [destruct Hin|]. simpl.
  destruct Hin as [-> | Hin].
  - rewrite Ha. cbn [rbind]. eauto.
  - destruct (f x); cbn [rbind]; [|eauto].
    destruct (IH Hin) as (e' & ->). cbn [rbind]. eauto.
Qed.

(** The steps of [_extract_details], read backwards from a success. *)
Lemma extract_details_inv r w d w' :
  _extract_details (JObj r) w = (Ok d, w') ->
  exists id original_language categories tags pub publication_date
         modification_date sections,
    dict_get "id" r = Some id
    /\ dict_get "original_language" r = Some original_language
    /\ set_or_self (py_get "category" r) = Ok categories
    /\ set_or_self (py_get "tag" r) = Ok tags
    /\ dict_get "pub_date" r = Some pub
    /\ to_datetime pub ";" = Ok publication_date
    /\ to_datetime (match dict_get "mod_date" r with
                    | Some v => v
                    | None => JStr (Iso.isoformat now)
                    end) ":" = Ok modification_date
    /\ _extract_sections (py_get "sections" r) id w = (Ok sections, w')
    /\ d = mkDetail id original_language
                    (substitute ARTICLE_DETAIL_URL id) (py_get "thumbnail" r)
                    categories tags (py_get "author" r)
                    publication_date modification_date sections.
Proof.
  unfold _extract_details, subscript.
  rewrite bind_lift.
  destruct (dict_get "id" r) as [id|]; [|discriminate].
  rewrite bind_lift.
  destruct (dict_get "original_language" r) as [lang|]; [|discriminate].
  rewrite bind_lift.
  destruct (set_or_self (py_get "category" r)) as [cats|] eqn:Ec; [|discriminate].
  rewrite bind_lift.
  destruct (set_or_self (py_get "tag" r)) as [tags|] eqn:Et; [|discriminate].
  rewrite bind_lift.
  destruct (dict_get "pub_date" r) as [pub|]; [|discriminate].
  rewrite bind_lift.
  destruct (to_datetime pub ";") as [pd|] eqn:Ep; [|discriminate].
  rewrite bind_lift.
  destruct (to_datetime _ ":") as [md|] eqn:Em; [|discriminate].
  unfold bind.
  destruct (_extract_sections (py_get "sections" r) id w) as [[secs|e] w1] eqn:Es;
    [|discriminate].
  unfold ret. intros [= <- <-].
  exists id, lang, cats, tags, pub, pd, md, secs.
  repeat match goal with |- _ /\ _ => split end;
    solve [reflexivity | assumption].
Qed.

(** A result is an answer or an exception. *)
Lemma raised_or {A} (r : result A) :
  (forall a, r = Ok a -> False) -> exists e, r = Raise e.
Proof. destruct r as [a|e]; [intros H; destruct (H a eq_refl) | eauto]. Qed.

(** [_extract_details] raises when its call of [_extract_sections] would. *)
Lemma extract_details_sections_raise r w id e :
  dict_get "id" r = Some id ->
  fst (_extract_sections (py_get "sections" r) id w) = Raise e ->
  exists e', fst (_extract_details (JObj r) w) = Raise e'.
Proof.
  intros Hid Hs. apply raised_or. intros d Hd.
  destruct (_extract_details (JObj r) w) as [res w'] eqn:E.
  simpl in Hd. subst res.
  apply extract_details_inv in E.
  destruct E as (id' & ? & ? & ? & ? & ? & ? & secs & Hid' & _ & _ & _ & _ & _ & _ & Hx & _).
  rewrite Hid in Hid'. injection Hid' as <-.
  rewrite Hx in Hs. discriminate.
Qed.

(** [_extract_details] asks for the media listing at most once too. *)
Lemma extract_details_world response w :
  snd (_extract_details response w) = w
  \/ exists id,
       snd (_extract_details response w)
       = mkWorld (substitute BASE_MEDIA_URL id :: requests w) (printed w).
Proof.
  destruct response as [| | | | |r]; try (left; reflexivity).
  unfold _extract_details.
  repeat (rewrite bind_lift;
          match goal with
          | |- context [match ?x with Ok _ => _ | Raise _ => _ end] =>
              destruct x; [|left; reflexivity]
          end).
  unfold bind.
  match goal with
  | |- context [_extract_sections ?s ?i w] =>
      pose proof (extract_sections_world s i w) as Hw;
      destruct (_extract_sections s i w) as [[secs|e] w1]
  end; simpl in *; destruct Hw as [-> | ->]; eauto.
Qed.

Lemma extract_details_printed response w :
  printed (snd (_extract_details response w)) = printed w.
Proof.
  destruct (extract_details_world response w) as [-> | (id & ->)]; reflexivity.
Qed.

(** [Article.details] prints nothing when [_extract_details] raises. *)
Lemma details_propagates heading id response w w1 e :
  subscript heading "id" = Ok id ->
  fetch (substitute ARTICLE_DETAIL_URL id) w = (Ok response, w1) ->
  response <> JNull ->
  fst (_extract_details response w1) = Raise e ->
  fst (details heading w) = Raise e
  /\ printed (snd (details heading w)) = printed w.
Proof.
  intros Hid Hf Hn He.
  assert (exists w2, details heading w = (Raise e, w2) /\ printed w2 = printed w)
    as (w2 & -> & H); [|auto].
  unfold details.
  rewrite bind_lift, Hid. unfold bind at 1. rewrite Hf.
  assert (printed w1 = printed w) as Hp.
  { pose proof (fetch_world (substitute ARTICLE_DETAIL_URL id) w) as H.
    rewrite Hf in H. simpl in H. now subst w1. }
  pose proof (extract_details_printed response w1) as Hp'.
  destruct response; try congruence; unfold bind;
    destruct (_extract_details _ w1) as [[det|e'] w2]; simpl in *;
    try discriminate; injection He as ->; exists w2; split; congruence.
Qed.

End PipelineFacts.

(* ================================================================== *)
(** ** A run from end to end *)

(** A title and an image reference, with the media listing of [a1]: a
    [TitleSection] and an [ImageSection] with the url and the alternative
    text of the media record, after one request. *)
Example title_and_image :
  _extract_sections (P := Demo.platform)
    (JArr [Demo.title_T; Demo.image_m1]) (JStr "a1") Demo.w0
  = (Ok [mkSection TitleSection
           [("type", VJson (JStr "title")); ("text", VJson (JStr "T"))]%string;
         mkSection ImageSection
           [("type", VJson (JStr "image")); ("url", VJson (JStr "https://x/y.jpg"));
            ("alt", VJson (JStr "A")); ("caption", VJson JNull);
            ("source", VJson JNull)]%string],
     mkWorld [Demo.media_url "a1"] []).
Proof. reflexivity. Qed.

(* ================================================================== *)
(** ** The media index is fetched once *)

(** C1. In one item resolution the media listing is requested at most
    once, however many image and media descriptors there are: a run of
    [_extract_sections] leaves the request log as it was or adds the media
    URL of the article to it, once, and so does the run of
    [_extract_details] around it; and once [image_media_data] holds what
    the fetch answered ([None] or an index with entries), the rest of the
    loop asks the network nothing. *)
Theorem media_index_fetched_at_most_once {P : Platform}
    (section_headers article_id : json) (w : world) :
  let w' := snd (_extract_sections section_headers article_id w) in
  printed w' = printed w
  /\ (requests w' = requests w
      \/ requests w' = substitute BASE_MEDIA_URL article_id :: requests w)
  /\ (forall response,
         requests (snd (_extract_details response w)) = requests w
         \/ exists id,
              requests (snd (_extract_details response w))
              = substitute BASE_MEDIA_URL id :: requests w)
  /\ (forall hs sections image_media_data w1,
         is_empty_dict image_media_data = false ->
         snd (sections_loop article_id hs sections image_media_data w1) = w1).
Proof.
  cbv zeta. repeat match goal with |- _ /\ _ => split end.
  - destruct (extract_sections_world section_headers article_id w) as [-> | ->];
      reflexivity.
  - destruct (extract_sections_world section_headers article_id w) as [-> | ->];
      auto.
  - intros response.
    destruct (extract_details_world response w) as [-> | (id & ->)];
      [left; reflexivity | right; exists id; reflexivity].
  - intros hs sections midx w1 H. now rewrite loop_settled.
Qed.

(* ================================================================== *)
(** ** Descriptors of an unknown type *)

(** C2, as the code has it: a descriptor whose [type] is none of the six
    known ones makes [_map_section] answer [None], the subscript of [None]
    raises [TypeError], and the exception ends [_extract_sections] and
    [_extract_details]: no section list and no article come out. *)
Theorem unknown_type_aborts {P : Platform}
    (hs : list json) (article_id : json) (w : world) (header : dict) (stype : json) :
  In (JObj header) hs ->
  dict_get "type" header = Some stype ->
  known_type stype = false ->
  (forall media, map_header media (JObj header) = Raise TypeError)
  /\ (exists e, fst (_extract_sections (JArr hs) article_id w) = Raise e)
  /\ (forall r,
         dict_get "id" r = Some article_id ->
         dict_get "sections" r = Some (JArr hs) ->
         exists e, fst (_extract_details (JObj r) w) = Raise e).
Proof.
  intros Hin Ht Hk.
  assert (forall media, map_header media (JObj header) = Raise TypeError) as Hm
    by (intros media; eapply map_header_unknown; eassumption).
  assert (exists e, fst (_extract_sections (JArr hs) article_id w) = Raise e) as Hs.
  { rewrite extract_sections_result. cbn [py_iter rbind].
    eapply collect_raises; [exact Hin | apply Hm]. }
  split; [exact Hm | split; [exact Hs |]].
  intros r Hid Hsec. destruct Hs as (e & Hs).
  apply (extract_details_sections_raise r w article_id e Hid).
  unfold py_get. now rewrite Hsec.
Qed.

Lemma unknown_type_aborts_witness :
  exists e,
    fst (_extract_sections (P := Demo.platform)
           (JArr [Demo.quote_x; Demo.text_y]) (JStr "a1") Demo.w0)
    = Raise e.
Proof.
  apply (unknown_type_aborts (P := Demo.platform)
           [Demo.quote_x; Demo.text_y] (JStr "a1") Demo.w0
           [("type", JStr "quote"); ("text", JStr "x")]%string (JStr "quote")).
  - left. reflexivity.
  - reflexivity.
  - reflexivity.
Defined.

(** With the descriptor of type [quote] in front, the text descriptor that
    follows is not mapped: the run ends in [TypeError], where dropping the
    unknown descriptor would answer the text section alone. *)
Lemma unknown_type_not_skipped :
  known_type (JStr "quote") = false
  /\ fst (_extract_sections (P := Demo.platform)
            (JArr [Demo.quote_x; Demo.text_y]) (JStr "a1") Demo.w0)
     = Raise TypeError
  /\ fst (_extract_sections (P := Demo.platform)
            (JArr [Demo.text_y]) (JStr "a1") Demo.w0)
     = Ok [mkSection TextSection
             [("type", VJson (JStr "text")); ("text", VJson (JStr "y"))]%string].
Proof. repeat split. Qed.

(* ================================================================== *)
(** ** A media fetch that fails *)

(** C3. When [_fetch_media_details] answers [None], the run maps every
    descriptor as [map_header] does without an index: an image or media
    descriptor is skipped, a descriptor of another type is mapped as under
    any other answer of the fetch, and no section of the result is an
    [ImageSection] or a [MediaSection]. *)
Theorem failed_media_fetch_drops_only_media {P : Platform}
    (hs : list json) (article_id : json) (w : world) :
  fst (_fetch_media_details article_id w) = Ok None ->
  fst (_extract_sections (JArr hs) article_id w) = collect (map_header (Ok None)) hs
  /\ (forall h, is_media_descriptor h = true -> map_header (Ok None) h = Ok None)
  /\ (forall h media,
         is_media_descriptor h = false ->
         map_header (Ok None) h = map_header media h)
  /\ (forall sections,
         fst (_extract_sections (JArr hs) article_id w) = Ok sections ->
         Forall (fun s => is_media_class (section_class s) = false) sections).
Proof.
  intros Hf.
  assert (fst (_extract_sections (JArr hs) article_id w)
          = collect (map_header (Ok None)) hs) as Hr
    by (rewrite extract_sections_result, Hf; reflexivity).
  repeat match goal with |- _ /\ _ => split end.
  - exact Hr.
  - apply map_header_skipped.
  - intros h media H. now apply map_header_plain.
  - intros sections Hs. rewrite Hr in Hs.
    eapply collect_Forall; [|exact Hs].
    intros a b. apply map_header_no_index_class.
Qed.

Lemma failed_media_fetch_drops_only_media_witness :
  fst (_fetch_media_details (P := Demo.platform) (JStr "zz") Demo.w0) = Ok None
  /\ fst (_extract_sections (P := Demo.platform)
            (JArr [Demo.title_T; Demo.image_m1; Demo.text_y]) (JStr "zz") Demo.w0)
     = collect (map_header (P := Demo.platform) (Ok None))
         [Demo.title_T; Demo.image_m1; Demo.text_y].
Proof.
  split; [reflexivity|].
  apply (failed_media_fetch_drops_only_media (P := Demo.platform)).
  reflexivity.
Defined.

(* ================================================================== *)
(** ** A payload without [mod_date] *)

(** C4, at the failing inputs: the default of [mod_date] is written by
    [isoformat] and read back by [to_datetime], which refuses it, so every
    payload without [mod_date] makes [_extract_details] raise. *)
Theorem missing_mod_date_raises {P : Platform} (r : dict) (w : world) :
  dict_get "mod_date" r = None ->
  to_datetime (JStr (Iso.isoformat now)) ":" = Raise ValueError
  /\ exists e, fst (_extract_details (JObj r) w) = Raise e.
Proof.
  intros Hm. split; [apply IsoFacts.isoformat_rejected|].
  apply raised_or. intros d Hd.
  destruct (_extract_details (JObj r) w) as [res w'] eqn:E.
  simpl in Hd. subst res. apply extract_details_inv in E.
  destruct E as (? & ? & ? & ? & ? & ? & md & ? & _ & _ & _ & _ & _ & _ & H & _).
  rewrite Hm, IsoFacts.isoformat_rejected in H. discriminate.
Qed.

Lemma missing_mod_date_raises_witness :
  to_datetime (JStr (Iso.isoformat (now (Platform := Demo.platform)))) ":"
  = Raise ValueError
  /\ exists e,
       fst (_extract_details (P := Demo.platform)
              (JObj Demo.payload_no_mod_date) Demo.w0)
       = Raise e.
Proof.
  apply (missing_mod_date_raises (P := Demo.platform)
           Demo.payload_no_mod_date Demo.w0).
  reflexivity.
Defined.

(** The exception of that run is the [ValueError] of [strptime]. *)
Example missing_mod_date_example :
  fst (_extract_details (P := Demo.platform)
         (JObj Demo.payload_no_mod_date) Demo.w0)
  = Raise ValueError.
Proof. reflexivity. Qed.

(* ================================================================== *)
(** ** [fetch] and a body that is not JSON *)

(** C5, at the failing inputs: a response with a success status and a body
    that is not JSON makes [fetch] raise; [response.json()] is called in
    the [else] clause, outside the reach of the two handlers. *)
Theorem unparsable_body_raises {P : Platform} (url : string) (w : world) :
  net (length (requests w)) url = BadBody ->
  fst (fetch url w) = Raise JSONError.
Proof. intros H. unfold fetch. now rewrite H. Qed.

Lemma unparsable_body_raises_witness :
  fst (fetch (P := Demo.platform) (Demo.detail_url "a3") Demo.w0)
  = Raise JSONError.
Proof.
  apply (unparsable_body_raises (P := Demo.platform)). reflexivity.
Defined.

(** The other three outcomes: [None] for a transport error and for an
    error status, the body when it parses. *)
Lemma fetch_other_outcomes {P : Platform} (url : string) (w : world) :
  match net (length (requests w)) url with
  | TransportError | BadStatus => fst (fetch url w) = Ok JNull
  | Body j => fst (fetch url w) = Ok j
  | BadBody => True
  end.
Proof. unfold fetch. now destruct (net _ _). Qed.

(* ================================================================== *)
(** ** Categories and tags *)

(** C6, at the failing inputs: an empty [category] (or [tag]) list is
    passed on as it is, an empty list and not [None]. *)
Theorem empty_source_list_is_kept {P : Platform} (r : dict) (w : world) (d : detail) :
  fst (_extract_details (JObj r) w) = Ok d ->
  (dict_get "category" r = Some (JArr []) -> d_categories d = VJson (JArr []))
  /\ (dict_get "tag" r = Some (JArr []) -> d_tags d = VJson (JArr [])).
Proof.
  intros Hd. destruct (_extract_details (JObj r) w) as [res w'] eqn:E.
  simpl in Hd. subst res. apply extract_details_inv in E.
  destruct E as (? & ? & cats & tags & ? & ? & ? & ? & _ & _ & Hc & Ht & _ & _ & _ & _ & ->).
  unfold py_get in Hc, Ht. cbn [d_categories d_tags].
  split; intros H; rewrite H in *; cbn in *; congruence.
Qed.

Lemma empty_source_list_is_kept_witness :
  exists d,
    fst (_extract_details (P := Demo.platform)
           (JObj Demo.payload_empty_lists) Demo.w0) = Ok d
    /\ d_categories d = VJson (JArr [])
    /\ d_tags d = VJson (JArr []).
Proof.
  eexists. split; [vm_compute; reflexivity|].
  split;
    apply (empty_source_list_is_kept (P := Demo.platform)
             Demo.payload_empty_lists Demo.w0 _ eq_refl);
    reflexivity.
Defined.

Lemma py_eqb_refl x : hashable x = true -> py_eqb x x = true.
Proof.
  destruct x; simpl; try discriminate; intros _.
  - reflexivity.
  - apply Bool.eqb_reflx.
  - apply Z.eqb_refl.
  - apply String.eqb_refl.
Qed.

Lemma py_set_keeps y l : forall acc,
  existsb (py_eqb y) acc = true ->
  existsb (py_eqb y) (fold_left py_set_add l acc) = true.
Proof.
  induction l as [|a l IH]; simpl; [auto|]. intros acc H. apply IH.
  unfold py_set_add. destruct (existsb (py_eqb a) acc); [exact H|].
  rewrite existsb_app, H. reflexivity.
Qed.

Lemma py_set_adds y l : forall acc,
  hashable y = true -> In y l ->
  existsb (py_eqb y) (fold_left py_set_add l acc) = true.
Proof.
  induction l as [|a l IH]; simpl; [contradiction|].
  intros acc Hh [-> | Hin]; [|auto].
  apply py_set_keeps. unfold py_set_add.
  destruct (existsb (py_eqb y) acc) eqn:E; [exact E|].
  rewrite existsb_app. simpl. rewrite (py_eqb_refl y Hh). now rewrite orb_true_r.
Qed.

Lemma py_set_members l : forall acc y,
  In y (fold_left py_set_add l acc) -> In y acc \/ In y l.
Proof.
  induction l as [|a l IH]; simpl; [auto|]. intros acc y Hy.
  apply IH in Hy. destruct Hy as [Hy|Hy]; [|auto].
  unfold py_set_add in Hy. destruct (existsb _ acc); [auto|].
  apply in_app_or in Hy. destruct Hy as [Hy|[<-|[]]]; auto.
Qed.

(** The rest of C6 holds: an absent list gives [None], a list with
    elements gives the set of them. *)
Lemma set_or_self_absent_or_filled :
  set_or_self JNull = Ok (VJson JNull)
  /\ forall x l,
       forallb hashable (x :: l) = true ->
       exists s,
         set_or_self (JArr (x :: l)) = Ok (VSet s)
         /\ (forall y, In y s -> In y (x :: l))
         /\ (forall y, In y (x :: l) -> existsb (py_eqb y) s = true).
Proof.
  split; [reflexivity|]. intros x l Hh.
  unfold set_or_self, py_set. cbn [truthy py_iter rbind]. rewrite Hh.
  eexists. split; [reflexivity|]. split.
  - intros y Hy. apply py_set_members in Hy. destruct Hy as [[]|Hy]. exact Hy.
  - intros y Hy. apply py_set_adds; [|exact Hy].
    rewrite forallb_forall in Hh. auto.
Qed.

(* ================================================================== *)
(** ** Image and media descriptors found in the index *)

Lemma fill_fields_reads (fields : list string) (header : dict) :
  forall section_data,
    fill_fields fields header = Ok section_data ->
    map fst section_data = fields
    /\ (forall field,
           In field fields -> field <> "publication_date"%string ->
           In (field, VJson (py_get field header)) section_data)
    /\ (In "publication_date"%string fields ->
        exists pub dt,
          dict_get "pub_date" header = Some pub
          /\ to_datetime pub ";" = Ok dt
          /\ In ("publication_date"%string, VDatetime dt) section_data).
Proof.
  induction fields as [|f fields IH]; simpl.
  - intros ? [= <-]. repeat split; intros; contradiction.
  - intros section_data.
    destruct (fill_field header f) as [[k v]|e] eqn:Ef; [|discriminate].
    cbn [rbind].
    destruct (fill_fields fields header) as [xs|e]; [|discriminate].
    cbn [rbind]. intros [= <-].
    destruct (IH xs eq_refl) as (IH1 & IH2 & IH3). clear IH.
    unfold fill_field, subscript in Ef.
    destruct (String.eqb f "publication_date") eqn:Efd.
    + apply String.eqb_eq in Efd. subst f.
      destruct (dict_get "pub_date" header) as [pub|] eqn:Ep; [|discriminate].
      cbn [rbind] in Ef.
      destruct (to_datetime pub ";") as [dt|] eqn:Et; [|discriminate].
      injection Ef as <- <-.
      repeat split.
      * simpl. now rewrite IH1.
      * intros field [<-|Hin] Hne; [contradiction | right; auto].
      * intros _. exists pub, dt. simpl. auto.
    + injection Ef as <- <-.
      apply String.eqb_neq in Efd.
      repeat split.
      * simpl. now rewrite IH1.
      * intros field [<-|Hin] Hne; [now left | right; auto].
      * intros [Hf|Hin]; [congruence|].
        destruct (IH3 Hin) as (pub & dt & ? & ? & ?).
        exists pub, dt. simpl. auto.
Qed.



(* ================================================================== *)
(** ** [to_datetime] *)


(** The separators of the program are plain. *)
Example program_separators_plain :
  Strptime.plain_sep (list_ascii_of_string ";") = true
  /\ Strptime.plain_sep (list_ascii_of_string ":") = true.
Proof. split; reflexivity. Qed.

(* ================================================================== *)
(** ** The order of the sections *)



(* ================================================================== *)
(** ** An id that the media index does not list *)




(* ================================================================== *)
(** ** More on [to_datetime] *)

Module TimeFacts.
Import Strptime.

Lemma digits_lack c t :
  digit c = false -> forallb digit t = true -> occurrences c t = 0%nat.
Proof.
  intros Hc. induction t as [|x t IH]; [reflexivity|].
  cbn [forallb]. intros H. apply andb_true_iff in H. destruct H as [Hx Ht].
  rewrite IsoFacts.occurrences_cons_neq; [auto|].
  intros ->. congruence.
Qed.

Lemma numeral_lacks c t :
  digit c = false -> numeral t -> occurrences c t = 0%nat.
Proof. intros Hc [_ H]. now apply digits_lack. Qed.

Lemma day_numeral_lacks c t :
  digit c = false -> c <> " "%char -> day_numeral t -> occurrences c t = 0%nat.
Proof.
  intros Hc Hb [H | (x & -> & Hx)]; [now apply numeral_lacks|].
  rewrite !IsoFacts.occurrences_cons_neq; [reflexivity | |].
  - intros ->. congruence.
  - congruence.
Qed.

(** A text read with [sep] has the characters of [sep], twice, and apart
    from them digits, dashes and a blank at most. *)
Lemma parses_occurrences c s sep dt :
  digit c = false -> c <> " "%char -> c <> "-"%char ->
  parses_as s sep dt ->
  occurrences c s = (2 * occurrences c sep)%nat.
Proof.
  intros Hd Hb Hm (ty & tm & td & tH & tM & tS & -> & _ & Hy & Hmo & Hda & HH & HM & HS & _).
  repeat first
    [ rewrite IsoFacts.occurrences_app
    | rewrite IsoFacts.occurrences_cons_neq by congruence ].
  rewrite (digits_lack c ty Hd Hy), (numeral_lacks c tm Hd Hmo),
    (day_numeral_lacks c td Hd Hb Hda), (numeral_lacks c tH Hd HH),
    (numeral_lacks c tM Hd HM), (numeral_lacks c tS Hd HS).
  lia.
Qed.

End TimeFacts.

(** X1. The two separators of the program exclude each other: a text that
    [to_datetime] reads with [;] is refused with [:]. So a detail payload
    whose [mod_date] is written the way its [pub_date] must be written
    makes [_extract_details] raise. *)
Theorem semicolon_text_refused_with_colon {P : Platform} (text : json) (dt : datetime) :
  to_datetime text ";" = Ok dt ->
  to_datetime text ":" = Raise ValueError
  /\ forall r w,
       dict_get "mod_date" r = Some text ->
       exists e, fst (_extract_details (JObj r) w) = Raise e.
Proof.
  intros H.
  assert (to_datetime text ":" = Raise ValueError) as Hc.
  { destruct text as [| | |s| |]; try discriminate. unfold to_datetime in *.
    apply StrptimeFacts.strptime_sound in H.
    destruct (Strptime.strptime (list_ascii_of_string s) (list_ascii_of_string ":"))
      as [dt'|e] eqn:E.
    - apply StrptimeFacts.strptime_sound in E.
      apply (TimeFacts.parses_occurrences ";"%char) in H; try (reflexivity || discriminate).
      apply (TimeFacts.parses_occurrences ";"%char) in E; try (reflexivity || discriminate).
      rewrite H in E. vm_compute in E. discriminate.
    - now rewrite (IsoFacts.strptime_raises _ _ _ E). }
  split; [exact Hc|].
  intros r w Hm. apply raised_or. intros d Hd.
  destruct (_extract_details (JObj r) w) as [res w'] eqn:E.
  simpl in Hd. subst res. apply extract_details_inv in E.
  destruct E as (? & ? & ? & ? & ? & ? & md & ? & _ & _ & _ & _ & _ & _ & Hx & _).
  rewrite Hm, Hc in Hx. discriminate.
Qed.

Lemma semicolon_text_refused_with_colon_witness :
  to_datetime (JStr "2020-07-08-20;50;43") ":" = Raise ValueError
  /\ forall r w,
       dict_get "mod_date" r = Some (JStr "2020-07-08-20;50;43") ->
       exists e, fst (_extract_details (P := Demo.platform) (JObj r) w) = Raise e.
Proof.
  apply (semicolon_text_refused_with_colon (P := Demo.platform)
           (JStr "2020-07-08-20;50;43") (mkDatetime 2020 7 8 20 50 43 0)).
  reflexivity.
Defined.

Module RoundTrip.
Import Strptime.

Lemma match_alt_app a : forall t r,
  (length a <= length t)%nat ->
  match_alt a (t ++ r)
  = match match_alt a t with
    | Some (c, r') => Some (c, r' ++ r)
    | None => None
    end.
Proof.
  induction a as [|c a IH]; intros t r Hl; [reflexivity|].
  destruct t as [|x t]; [simpl in Hl; lia|].
  cbn [match_alt app]. destruct (c x); [|reflexivity].
  rewrite IH by (simpl in Hl; lia).
  now destruct (match_alt a t) as [[? ?]|].
Qed.

Lemma strip_prefix_app l r : strip_prefix l (l ++ r) = Some r.
Proof.
  induction l as [|c l IH]; [reflexivity|].
  cbn [strip_prefix app]. now rewrite Ascii.eqb_refl.
Qed.

Lemma lit_step l p r : match_items (Lit l :: p) (l ++ r) = match_items p r.
Proof. cbn [match_items]. now rewrite strip_prefix_app. Qed.

(** A directive whose first matching alternative takes the whole group
    hands the rest of the text to the rest of the pattern. *)
Lemma dir_step alts t r p caps rest :
  Forall (fun a => (length a <= length t)%nat) alts ->
  probe alts t = true ->
  match_items p r = Some (caps, rest) ->
  match_items (Dir alts :: p) (t ++ r) = Some (t :: caps, rest).
Proof.
  intros Hl Hp Hr. cbn [match_items].
  induction alts as [|a alts IH]; [discriminate|].
  inversion Hl as [|? ? Ha Hl']; subst.
  cbn [first_some probe] in *. rewrite match_alt_app by assumption.
  destruct (match_alt a t) as [[c r']|] eqn:E.
  - destruct r' as [|x r']; [|discriminate].
    apply StrptimeFacts.match_alt_sound in E. destruct E as [E _].
    rewrite app_nil_r in E. subst c. cbn [app]. now rewrite Hr.
  - auto.
Qed.

Lemma zrange_In lo n v :
  lo <= v < lo + Z.of_nat n -> In v (zrange lo n).
Proof.
  intros H. unfold zrange. apply in_map_iff.
  exists (Z.to_nat (v - lo)). split; [lia|]. apply in_seq. lia.
Qed.

Lemma group_ok_spec alts t v :
  group_ok alts t v = true -> probe alts t = true /\ int_of t = v.
Proof.
  unfold group_ok. intros H. apply andb_true_iff in H.
  destruct H as [H1 H2]. apply Z.eqb_eq in H2. auto.
Qed.

Ltac by_range lo n :=
  match goal with
  | |- group_ok ?alts (?pad ?v) ?v = true =>
      let H := fresh in
      assert (forallb (fun x => group_ok alts (pad x) x) (zrange lo n) = true) as H
        by (vm_compute; reflexivity);
      rewrite forallb_forall in H; apply H; apply zrange_In; lia
  end.

Lemma year_ok v :
  1 <= v <= 9999 -> group_ok [[digit; digit; digit; digit]] (Iso.pad4 v) v = true.
Proof. intros H. by_range 1 (Z.to_nat 9999). Qed.

Lemma month_ok v :
  1 <= v <= 12 ->
  group_ok [[is_char "1"; in_range "0" "2"]; [is_char "0"; in_range "1" "9"];
            [in_range "1" "9"]] (Iso.pad2 v) v = true.
Proof. intros H. by_range 1 (Z.to_nat 12). Qed.

Lemma day_ok v :
  1 <= v <= 31 ->
  group_ok [[is_char "3"; in_range "0" "1"]; [in_range "1" "2"; digit];
            [is_char "0"; in_range "1" "9"]; [in_range "1" "9"];
            [is_char " "; in_range "1" "9"]] (Iso.pad2 v) v = true.
Proof. intros H. by_range 1 (Z.to_nat 31). Qed.

Lemma hour_ok v :
  0 <= v <= 23 ->
  group_ok [[is_char "2"; in_range "0" "3"]; [in_range "0" "1"; digit]; [digit]]
    (Iso.pad2 v) v = true.
Proof. intros H. by_range 0 (Z.to_nat 24). Qed.

Lemma minute_ok v :
  0 <= v <= 59 ->
  group_ok [[in_range "0" "5"; digit]; [digit]] (Iso.pad2 v) v = true.
Proof. intros H. by_range 0 (Z.to_nat 60). Qed.

Lemma second_ok v :
  0 <= v <= 59 ->
  group_ok [[is_char "6"; in_range "0" "1"]; [in_range "0" "5"; digit]; [digit]]
    (Iso.pad2 v) v = true.
Proof. intros H. by_range 0 (Z.to_nat 60). Qed.

Lemma days_in_month_le y m : days_in_month y m <= 31.
Proof.
  unfold days_in_month.
  destruct (m =? 2); [destruct (is_leap y); lia|].
  destruct (_ || _)%bool; lia.
Qed.

Lemma datetime_ok_ranges dt :
  datetime_ok dt = true ->
  1 <= year dt <= 9999 /\ 1 <= month dt <= 12 /\ 1 <= day dt <= 31
  /\ 0 <= hour dt <= 23 /\ 0 <= minute dt <= 59 /\ 0 <= second dt <= 59.
Proof.
  unfold datetime_ok. intros H.
  repeat match goal with
    | H : (_ && _)%bool = true |- _ => apply andb_true_iff in H; destruct H
    end.
  repeat match goal with H : (_ <=? _) = true |- _ => apply Z.leb_le in H end.
  pose proof (days_in_month_le (year dt) (month dt)). lia.
Qed.

Ltac lengths := repeat constructor; simpl; lia.

Lemma canonical_text_matches sep dt :
  datetime_ok dt = true ->
  match_items (format sep) (canonical_text sep dt)
  = Some ([Iso.pad4 (year dt); Iso.pad2 (month dt); Iso.pad2 (day dt);
           Iso.pad2 (hour dt); Iso.pad2 (minute dt); Iso.pad2 (second dt)], [])
  /\ int_of (Iso.pad4 (year dt)) = year dt
  /\ int_of (Iso.pad2 (month dt)) = month dt
  /\ int_of (Iso.pad2 (day dt)) = day dt
  /\ int_of (Iso.pad2 (hour dt)) = hour dt
  /\ int_of (Iso.pad2 (minute dt)) = minute dt
  /\ int_of (Iso.pad2 (second dt)) = second dt.
Proof.
  intros Hok. apply datetime_ok_ranges in Hok.
  destruct Hok as (Hy & Hm & Hd & HH & HM & HS).
  destruct (group_ok_spec _ _ _ (year_ok _ Hy)) as [Py Iy].
  destruct (group_ok_spec _ _ _ (month_ok _ Hm)) as [Pm Im].
  destruct (group_ok_spec _ _ _ (day_ok _ Hd)) as [Pd Id].
  destruct (group_ok_spec _ _ _ (hour_ok _ HH)) as [PH IH].
  destruct (group_ok_spec _ _ _ (minute_ok _ HM)) as [PM IM].
  destruct (group_ok_spec _ _ _ (second_ok _ HS)) as [PS IS].
  repeat match goal with |- _ /\ _ => split end; try assumption.
  unfold canonical_text, format, dir_Y, dir_m, dir_d, dir_H, dir_M, dir_S.
  rewrite <- (app_nil_r (Iso.pad2 (second dt))).
  apply dir_step; [lengths | assumption |].
  refine (eq_trans (lit_step ["-"%char] _ _) _).
  apply dir_step; [lengths | assumption |].
  refine (eq_trans (lit_step ["-"%char] _ _) _).
  apply dir_step; [lengths | assumption |].
  refine (eq_trans (lit_step ["-"%char] _ _) _).
  apply dir_step; [lengths | assumption |].
  rewrite lit_step.
  apply dir_step; [lengths | assumption |].
  rewrite lit_step.
  apply dir_step; [lengths | assumption |].
  reflexivity.
Qed.

End RoundTrip.

(** X2. [to_datetime] reads back every instant written in its format: for
    an instant that exists, without microseconds, the zero-padded text of
    its fields, joined by [-] and by the separator, is read as that
    instant. *)
Theorem canonical_text_round_trip (sep : string) (dt : datetime) :
  Strptime.plain_sep (list_ascii_of_string sep) = true ->
  datetime_ok dt = true ->
  microsecond dt = 0 ->
  to_datetime
    (JStr (string_of_list_ascii (canonical_text (list_ascii_of_string sep) dt))) sep
  = Ok dt.
Proof.
  intros _ Hok Hus. unfold to_datetime, Strptime.strptime.
  rewrite list_ascii_of_string_of_list_ascii.
  destruct (RoundTrip.canonical_text_matches (list_ascii_of_string sep) dt Hok)
    as (-> & -> & -> & -> & -> & -> & ->).
  destruct dt as [y m d H M S us]. cbn in Hus. subst us. cbn [year month day hour minute second].
  now rewrite Hok.
Qed.

Lemma canonical_text_round_trip_witness :
  to_datetime (JStr "2020-07-08-20;50;43") ";" = Ok (mkDatetime 2020 7 8 20 50 43 0).
Proof.
  exact (canonical_text_round_trip ";" (mkDatetime 2020 7 8 20 50 43 0)
           eq_refl eq_refl eq_refl).
Defined.

(* ================================================================== *)
(** ** More on the loop of [_extract_sections] *)

Section LoopMore.

Context {P : Platform}.
Local Open Scope io_scope.

Lemma descriptor_media_class header t s info :
  subscript (JObj header) "type" = Ok t ->
  _map_section t = Ok s ->
  section_info s = Ok info ->
  is_media_descriptor (JObj header) = is_media_class (fst info).
Proof.
  intros Et Es Ei. unfold is_media_descriptor.
  now rewrite (descriptor_info _ _ _ _ Et Es Ei).
Qed.

(** Descriptors of the other four types never reach the network. *)
Lemma loop_plain_no_request article_id hs : forall sections midx w,
  Forall (fun h => is_media_descriptor h = false) hs ->
  snd (sections_loop article_id hs sections midx w) = w.
Proof.
  induction hs as [|h hs IH]; intros sections midx w Hp; [reflexivity|].
  inversion Hp as [|? ? Hh Hp']; subst.
  destruct h as [| | | | |header]; try reflexivity.
  cbn [sections_loop]. rewrite bind_lift.
  destruct (subscript (JObj header) "type") as [t|e] eqn:Et; [|reflexivity].
  rewrite bind_lift.
  destruct (_map_section t) as [s|e] eqn:Es; [|reflexivity].
  rewrite bind_lift.
  destruct (section_info s) as [info|e] eqn:Ei; [|reflexivity].
  rewrite (descriptor_media_class _ _ _ _ Et Es Ei) in Hh. rewrite Hh.
  rewrite bind_lift.
  destruct (build_section info header); [|reflexivity]. now apply IH.
Qed.

(** A run that ends well after meeting an image or media descriptor has
    asked for the media listing. *)
Lemma loop_media_request article_id hs : forall sections w l w',
  sections_loop article_id hs sections (Some []) w = (Ok l, w') ->
  existsb is_media_descriptor hs = true ->
  w' = snd (_fetch_media_details article_id w).
Proof.
  induction hs as [|h hs IH]; intros sections w l w' Hr He; [discriminate|].
  destruct h as [| | | | |header]; try discriminate.
  cbn [sections_loop] in Hr. rewrite bind_lift in Hr.
  destruct (subscript (JObj header) "type") as [t|e] eqn:Et; [|discriminate].
  rewrite bind_lift in Hr.
  destruct (_map_section t) as [s|e] eqn:Es; [|discriminate].
  rewrite bind_lift in Hr.
  destruct (section_info s) as [info|e] eqn:Ei; [|discriminate].
  cbn [existsb] in He.
  rewrite (descriptor_media_class _ _ _ _ Et Es Ei) in He.
  destruct (is_media_class (fst info)).
  - cbn [is_empty_dict] in Hr. unfold bind at 1 in Hr.
    destruct (_fetch_media_details article_id w) as [[midx|e] w1]; [|discriminate].
    cbn [snd]. destruct midx as [idx|].
    + rewrite bind_lift in Hr.
      destruct (index_subscript idx (py_get "id" header)) as [val|e] eqn:Hv;
        [|discriminate].
      apply index_subscript_nonempty in Hv.
      repeat (rewrite bind_lift in Hr;
              match type of Hr with
              | match ?x with Ok _ => _ | Raise _ => _ end = _ =>
                  destruct x; [|discriminate]
              end).
      rewrite loop_settled in Hr by assumption. now injection Hr.
    + rewrite loop_settled in Hr by reflexivity. now injection Hr.
  - rewrite bind_lift in Hr.
    destruct (build_section info header); [|discriminate].
    cbn [orb] in He. eauto.
Qed.

Lemma existsb_false_Forall {A} (f : A -> bool) l :
  existsb f l = false -> Forall (fun a => f a = false) l.
Proof.
  induction l as [|a l IH]; simpl; [constructor|].
  intros H. apply orb_false_iff in H. destruct H. constructor; auto.
Qed.

(** A descriptor is skipped only without a media index, and only when it
    is an image or media descriptor. *)
Lemma map_header_none media h :
  map_header media h = Ok None ->
  media = Ok None /\ is_media_descriptor h = true.
Proof.
  destruct h as [| | | | |header]; try discriminate.
  unfold map_header.
  destruct (subscript (JObj header) "type") as [t|e] eqn:Et; [|discriminate].
  cbn [rbind].
  destruct (_map_section t) as [s|e] eqn:Es; [|discriminate].
  cbn [rbind].
  destruct (section_info s) as [info|e] eqn:Ei; [|discriminate].
  cbn [rbind].
  rewrite (descriptor_media_class _ _ _ _ Et Es Ei).
  destruct (is_media_class (fst info)).
  - destruct media as [[idx|]|e]; cbn [rbind]; try discriminate; [|auto].
    repeat match goal with
      | |- rbind ?x _ = _ -> _ => destruct x; cbn [rbind]; [|discriminate]
      end.
    discriminate.
  - destruct (build_section info header); discriminate.
Qed.

Lemma map_header_plain_class media h o :
  is_media_descriptor h = false ->
  map_header media h = Ok o ->
  exists s, o = Some s /\ descriptor_class h = Some (section_class s).
Proof.
  intros Hp Ho. destruct o as [s|].
  - exists s. split; [reflexivity|].
    destruct h as [| | | | |header]; try discriminate.
    unfold map_header in Ho.
    destruct (subscript (JObj header) "type") as [t|e] eqn:Et; [|discriminate].
    cbn [rbind] in Ho.
    destruct (_map_section t) as [st|e] eqn:Es; [|discriminate].
    cbn [rbind] in Ho.
    destruct (section_info st) as [info|e] eqn:Ei; [|discriminate].
    cbn [rbind] in Ho.
    rewrite (descriptor_media_class _ _ _ _ Et Es Ei) in Hp. rewrite Hp in Ho.
    destruct (build_section info header) as [sec|e] eqn:Hb; [|discriminate].
    injection Ho as <-.
    rewrite (build_section_class _ _ _ Hb).
    exact (descriptor_info _ _ _ _ Et Es Ei).
  - apply map_header_none in Ho. destruct Ho as [_ Ho]. congruence.
Qed.

Lemma fill_fields_plain fields header :
  ~ In "publication_date"%string fields ->
  fill_fields fields header = Ok (plain_data fields header).
Proof.
  induction fields as [|f fields IH]; intros Hn; [reflexivity|].
  cbn [fill_fields plain_data map]. unfold fill_field.
  destruct (String.eqb f "publication_date") eqn:E.
  - apply String.eqb_eq in E. subst f. destruct Hn. now left.
  - cbn [rbind]. fold (plain_data fields header).
    rewrite IH; [reflexivity|]. intros H. apply Hn. now right.
Qed.

Lemma plain_class_fields s cls fields :
  mapper_get s mapper = Some (cls, fields) ->
  is_media_class cls = false ->
  ~ In "publication_date"%string fields.
Proof.
  unfold mapper, mapper_get.
  repeat match goal with
    | |- context [String.eqb s ?k] => destruct (String.eqb s k)
    end;
    intros [= <- <-]; try discriminate; intros _ H; simpl in H;
    repeat (destruct H as [H|H]; [discriminate|]); exact H.
Qed.

End LoopMore.

(** X3. The media listing is fetched lazily: a run over descriptors none
    of which is an image or media descriptor asks the network nothing,
    whether it ends well or raises. *)
Theorem no_media_descriptor_no_request {P : Platform}
    (hs : list json) (article_id : json) (w : world) :
  Forall (fun h => is_media_descriptor h = false) hs ->
  snd (_extract_sections (JArr hs) article_id w) = w.
Proof.
  intros H. unfold _extract_sections. rewrite bind_lift. cbn [py_iter].
  now apply loop_plain_no_request.
Qed.

Lemma no_media_descriptor_no_request_witness :
  snd (_extract_sections (P := Demo2.platform)
         (JArr [Demo2.title_T; Demo2.header_H]) (JStr "b1") Demo2.w0)
  = Demo2.w0.
Proof.
  apply (no_media_descriptor_no_request (P := Demo2.platform)).
  repeat constructor.
Defined.

(** X4. A run of [_extract_sections] that ends well has made exactly one
    request, for the media listing of the article, when the payload has an
    image or media descriptor, and none otherwise. *)
Theorem successful_run_request_count {P : Platform}
    (hs : list json) (article_id : json) (w : world) (sections : list section) :
  fst (_extract_sections (JArr hs) article_id w) = Ok sections ->
  requests (snd (_extract_sections (JArr hs) article_id w))
  = if existsb is_media_descriptor hs
    then substitute BASE_MEDIA_URL article_id :: requests w
    else requests w.
Proof.
  intros Hr. destruct (existsb is_media_descriptor hs) eqn:He.
  - unfold _extract_sections in *. rewrite bind_lift in *. cbn [py_iter] in *.
    destruct (sections_loop article_id hs [] (Some []) w) as [r w'] eqn:E.
    cbn [fst snd] in *. subst r.
    rewrite (loop_media_request _ _ _ _ _ _ E He), fetch_media_world.
    reflexivity.
  - rewrite no_media_descriptor_no_request; [reflexivity|].
    now apply existsb_false_Forall.
Qed.

Lemma successful_run_request_count_witness :
  requests (snd (_extract_sections (P := Demo2.platform)
                   (JArr [Demo2.title_T; Demo2.media_v2]) (JStr "b1") Demo2.w0))
  = [substitute (P := Demo2.platform) BASE_MEDIA_URL (JStr "b1")].
Proof.
  eapply eq_trans.
  - eapply (successful_run_request_count (P := Demo2.platform)).
    vm_compute. reflexivity.
  - reflexivity.
Defined.

Lemma collect_all_some {A B} (f : A -> result (option B)) l :
  (forall a o, In a l -> f a = Ok o -> o <> None) ->
  forall bs, collect f l = Ok bs -> length bs = length l.
Proof.
  induction l as [|a l IH]; intros Hs bs; simpl.
  - now intros [= <-].
  - destruct (f a) as [o|e] eqn:Ea; [|discriminate]. cbn [rbind].
    destruct (collect f l) as [rest|e]; [|discriminate]. cbn [rbind].
    intros [= <-].
    assert (length rest = length l) as Hl
      by (apply IH; [intros; eapply Hs; [right|]; eassumption | reflexivity]).
    destruct o as [b|]; [simpl; now rewrite Hl|].
    destruct (Hs a None (or_introl eq_refl) Ea eq_refl).
Qed.

(** X5. A run that ends well builds one section for every descriptor,
    unless the media fetch answered [None]: then it builds one for every
    descriptor that is no image and no media descriptor. *)
Theorem one_section_per_descriptor {P : Platform}
    (hs : list json) (article_id : json) (w : world) (sections : list section) :
  fst (_extract_sections (JArr hs) article_id w) = Ok sections ->
  length sections
  = match fst (_fetch_media_details article_id w) with
    | Ok None => length (filter (fun h => negb (is_media_descriptor h)) hs)
    | _ => length hs
    end.
Proof.
  rewrite extract_sections_result. cbn [py_iter rbind].
  set (media := fst (_fetch_media_details article_id w)). clearbody media.
  intros Hc.
  assert (media <> Ok None -> length sections = length hs) as Hall.
  { intros Hn. apply (collect_all_some (map_header media) hs); [|exact Hc].
    intros a o _ Ha ->. apply map_header_none in Ha. tauto. }
  destruct media as [[idx|]|e]; try (apply Hall; discriminate).
  clear Hall. revert sections Hc.
  induction hs as [|h hs IH]; intros sections; simpl.
  - now intros [= <-].
  - destruct (map_header (Ok None) h) as [o|e] eqn:Eh; [|discriminate].
    cbn [rbind].
    destruct (collect (map_header (Ok None)) hs) as [rest|e]; [|discriminate].
    cbn [rbind]. intros [= <-]. specialize (IH rest eq_refl).
    destruct (is_media_descriptor h) eqn:Em.
    + rewrite (map_header_skipped h Em) in Eh. injection Eh as <-. exact IH.
    + destruct (map_header_plain_class _ _ _ Em Eh) as (s & -> & _).
      simpl. now rewrite IH.
Qed.

Lemma one_section_per_descriptor_witness :
  exists sections,
    fst (_extract_sections (P := Demo2.platform)
           (JArr [Demo2.title_T; Demo2.media_v2]) (JStr "zz") Demo2.w0)
    = Ok sections
    /\ length sections = 1%nat.
Proof.
  eexists. split; [vm_compute; reflexivity|].
  eapply eq_trans.
  - apply (one_section_per_descriptor (P := Demo2.platform)
             [Demo2.title_T; Demo2.media_v2] (JStr "zz") Demo2.w0).
    reflexivity.
  - reflexivity.
Defined.

(** X6. Text, title, lead and header descriptors are built as the class
    their [type] names: a run over such descriptors that ends well has one
    section per descriptor, in order, each of the class of its
    descriptor. *)
Theorem plain_descriptors_build_their_class {P : Platform}
    (hs : list json) (article_id : json) (w : world) (sections : list section) :
  Forall (fun h => is_media_descriptor h = false) hs ->
  fst (_extract_sections (JArr hs) article_id w) = Ok sections ->
  map (fun s => Some (section_class s)) sections = map descriptor_class hs.
Proof.
  intros Hp. rewrite extract_sections_result. cbn [py_iter rbind].
  generalize (fst (_fetch_media_details article_id w)). intros media.
  revert sections. induction Hp as [|h hs Hh Hp IH]; intros sections; simpl.
  - now intros [= <-].
  - destruct (map_header media h) as [o|e] eqn:Eh; [|discriminate].
    cbn [rbind].
    destruct (collect (map_header media) hs) as [rest|e]; [|discriminate].
    cbn [rbind]. intros [= <-].
    destruct (map_header_plain_class _ _ _ Hh Eh) as (s & -> & Hc).
    simpl. now rewrite Hc, (IH rest eq_refl).
Qed.

Lemma plain_descriptors_build_their_class_witness :
  map (fun s => Some (section_class s))
    [mkSection TitleSection
       [("type", VJson (JStr "title")); ("text", VJson (JStr "T"))]%string;
     mkSection HeaderSection
       [("type", VJson (JStr "header")); ("level", VJson (JInt 2));
        ("text", VJson (JStr "H"))]%string]
  = map descriptor_class [Demo2.title_T; Demo2.header_H].
Proof.
  apply (plain_descriptors_build_their_class (P := Demo2.platform)
           [Demo2.title_T; Demo2.header_H] (JStr "b1") Demo2.w0).
  - repeat constructor.
  - reflexivity.
Defined.

(** X7. A text, title, lead or header descriptor can fail in one way only:
    every field of its class is read with [header.get], a missing field is
    passed as [None], and the step raises exactly when the constructor of
    the class refuses these arguments. *)
Theorem plain_descriptor_fails_by_validation_only {P : Platform}
    (article_id : json) (header : dict) (s : string) (cls : SectionType)
    (fields : list string) (rest : list json) (sections : list section)
    (image_media_data : option index) (w : world) :
  dict_get "type" header = Some (JStr s) ->
  mapper_get s mapper = Some (cls, fields) ->
  is_media_class cls = false ->
  sections_loop article_id (JObj header :: rest) sections image_media_data w
  = match validate_section cls (plain_data fields header) with
    | Some fs =>
        sections_loop article_id rest (sections ++ [mkSection cls fs])
          image_media_data w
    | None => (Raise ValidationError, w)
    end.
Proof.
  intros Ht Hm Hc. cbn [sections_loop]. unfold subscript. rewrite Ht.
  rewrite bind_lift. unfold _map_section. cbn [hashable]. rewrite Hm.
  rewrite bind_lift. cbn [section_info]. rewrite bind_lift. cbn [fst]. rewrite Hc.
  rewrite bind_lift. unfold build_section. cbn [fst snd].
  rewrite (fill_fields_plain fields header (plain_class_fields _ _ _ Hm Hc)).
  cbn [rbind]. unfold construct.
  now destruct (validate_section cls (plain_data fields header)).
Qed.

Lemma plain_descriptor_fails_by_validation_only_witness :
  sections_loop (P := Demo2.platform) (JStr "b1") [JObj Demo2.lead_only] [] (Some [])
    Demo2.w0
  = (Ok [mkSection LeadSection
           [("type", VJson (JStr "lead")); ("text", VJson JNull)]%string],
     Demo2.w0).
Proof.
  exact (plain_descriptor_fails_by_validation_only (P := Demo2.platform)
           (JStr "b1") Demo2.lead_only "lead" LeadSection ["type"; "text"]%string
           [] [] (Some []) Demo2.w0 eq_refl eq_refl eq_refl).
Defined.

(** X8. A section of class [MediaSection] needs a publication date: when
    the [type] of the media record is [media] and the merged data has no
    [pub_date] that [to_datetime] reads with [;], the step raises and the
    run of [_extract_sections] ends with an exception. *)
Theorem media_section_needs_pub_date {P : Platform}
    (hs : list json) (article_id : json) (w : world) (idx : index)
    (header val : dict) :
  fst (_fetch_media_details article_id w) = Ok (Some idx) ->
  In (JObj header) hs ->
  is_media_descriptor (JObj header) = true ->
  index_get (py_get "id" header) idx = Some val ->
  dict_get "type" val = Some (JStr "media") ->
  (forall pub, dict_get "pub_date" (dict_update header val) = Some pub ->
               exists e, to_datetime pub ";" = Raise e) ->
  (exists e, map_header (Ok (Some idx)) (JObj header) = Raise e)
  /\ (exists e, fst (_extract_sections (JArr hs) article_id w) = Raise e).
Proof.
  intros Hf Hin Hm Hi Ht Hp.
  assert (exists e, map_header (Ok (Some idx)) (JObj header) = Raise e) as Hh.
  { destruct (media_descriptor_info _ Hm) as (t & info & Et & Es & Hc).
    unfold map_header. rewrite Et. cbn [rbind]. rewrite Es. cbn [rbind section_info].
    rewrite Hc. cbn [rbind]. rewrite (index_subscript_found _ _ _ Hi). cbn [rbind].
    unfold subscript at 1. rewrite dict_get_update, Ht. cbn [rbind].
    change (_map_section (JStr "media"))
      with (Ok (Some (MediaSection,
                      ["type"; "id"; "url"; "thumbnail"; "caption"; "author";
                       "publication_date"; "modification_date"; "duration"]%string))).
    cbn [rbind section_info]. unfold build_section. cbn [fst snd].
    destruct (fill_fields _ (dict_update header val)) as [data|e] eqn:Ef;
      cbn [rbind]; [|eauto].
    apply fill_fields_reads in Ef. destruct Ef as (_ & _ & Ef).
    destruct Ef as (pub & dt & Hpub & Hdt & _); [simpl; tauto|].
    destruct (Hp pub Hpub) as (e & He). congruence. }
  split; [exact Hh|]. destruct Hh as (e & Hh).
  rewrite extract_sections_result, Hf. cbn [py_iter rbind].
  eapply collect_raises; eassumption.
Qed.

Lemma media_section_needs_pub_date_witness :
  (exists e,
      map_header (P := Demo2.platform) (Ok (Some Demo2.index_b1)) Demo2.media_v1
      = Raise e)
  /\ (exists e,
         fst (_extract_sections (P := Demo2.platform)
                (JArr [Demo2.title_T; Demo2.media_v1]) (JStr "b1") Demo2.w0)
         = Raise e).
Proof.
  apply (media_section_needs_pub_date (P := Demo2.platform)
           [Demo2.title_T; Demo2.media_v1] (JStr "b1") Demo2.w0 Demo2.index_b1
           [("type", JStr "media"); ("id", JStr "v1")]%string Demo2.record_v1).
  - reflexivity.
  - right. left. reflexivity.
  - reflexivity.
  - reflexivity.
  - reflexivity.
  - intros pub H. discriminate H.
Defined.

(** X18. A descriptor that is no dict, or a dict without [type], ends the
    run: reading [header["type"]] raises ([TypeError] for a value that is
    no dict, [KeyError] for a missing key) and [_extract_sections] answers
    no section list. *)
Theorem descriptor_without_type_aborts {P : Platform}
    (hs : list json) (article_id : json) (w : world) (h : json) :
  In h hs ->
  (forall d, h = JObj d -> dict_get "type" d = None) ->
  (forall media,
      map_header media h
      = Raise (match h with JObj _ => KeyError | _ => TypeError end))
  /\ exists e, fst (_extract_sections (JArr hs) article_id w) = Raise e.
Proof.
  intros Hin Ht.
  assert (forall media,
             map_header media h
             = Raise (match h with JObj _ => KeyError | _ => TypeError end)) as Hm.
  { intros media. destruct h as [| | | | |d]; try reflexivity.
    unfold map_header, subscript. now rewrite (Ht d eq_refl). }
  split; [exact Hm|].
  rewrite extract_sections_result. cbn [py_iter rbind].
  eapply collect_raises; [exact Hin | apply Hm].
Qed.

Lemma descriptor_without_type_aborts_witness :
  (forall media,
      map_header (P := Demo2.platform) media (JObj [("text", JStr "T")]%string)
      = Raise KeyError)
  /\ exists e,
       fst (_extract_sections (P := Demo2.platform)
              (JArr [Demo2.title_T; JObj [("text", JStr "T")]%string])
              (JStr "b1") Demo2.w0)
       = Raise e.
Proof.
  apply (descriptor_without_type_aborts (P := Demo2.platform)
           [Demo2.title_T; JObj [("text", JStr "T")]%string] (JStr "b1") Demo2.w0
           (JObj [("text", JStr "T")]%string)).
  - right. left. reflexivity.
  - intros d [= <-]. reflexivity.
Defined.

(* ================================================================== *)
(** ** The media index *)

Section IndexFacts.

Context {P : Platform}.
Local Open Scope io_scope.

Lemma index_get_app k a b :
  index_get k (a ++ b)
  = match index_get k b with
    | Some v => Some v
    | None => index_get k a
    end.
Proof.
  induction a as [|[k' v'] a IH]; simpl.
  - now destruct (index_get k b).
  - rewrite IH. now destruct (index_get k b).
Qed.

(** The index is the listing, record by record, each under its [id]. *)
Lemma index_media_entries l : forall acc idx,
  index_media l acc = Ok idx ->
  exists entries,
    idx = acc ++ entries
    /\ Forall2 (fun j e => j = JObj (snd e)
                           /\ dict_get "id" (snd e) = Some (fst e)
                           /\ hashable (fst e) = true) l entries.
Proof.
  induction l as [|j l IH]; intros acc idx; simpl.
  - intros [= <-]. exists []. rewrite app_nil_r. split; [reflexivity | constructor].
  - destruct j as [| | | | |d]; try discriminate.
    destruct (dict_get "id" d) as [k|] eqn:Ek; [|discriminate].
    destruct (hashable k) eqn:Eh; [|discriminate].
    intros H. destruct (IH _ _ H) as (entries & -> & HF).
    exists ((k, d) :: entries). rewrite <- app_assoc. split; [reflexivity|].
    constructor; [simpl; auto | exact HF].
Qed.

Lemma index_media_bad l : forall acc,
  existsb bad_record l = true -> exists e, index_media l acc = Raise e.
Proof.
  induction l as [|j l IH]; intros acc; simpl; [discriminate|].
  destruct j as [| | | | |d]; simpl; eauto.
  destruct (dict_get "id" d) as [k|]; [|eauto].
  destruct (hashable k); simpl; eauto.
Qed.

Lemma fetch_media_body article_id w l :
  net (length (requests w)) (substitute BASE_MEDIA_URL article_id) = Body (JArr l) ->
  fst (_fetch_media_details article_id w)
  = (try image_media_data <- index_media l []; Ok (Some image_media_data)).
Proof.
  intros H. unfold _fetch_media_details, bind, fetch. rewrite H. reflexivity.
Qed.

Lemma entries_get_none k entries l :
  Forall2 (fun j e => j = JObj (snd e)
                      /\ dict_get "id" (snd e) = Some (fst e)
                      /\ hashable (fst e) = true) l entries ->
  (forall d2 k2, In (JObj d2) l -> dict_get "id" d2 = Some k2 -> py_eqb k k2 = false) ->
  index_get k entries = None.
Proof.
  induction 1 as [|j [k' d'] l entries (Hj & Hid & _) HF IH]; intros Hn; [reflexivity|].
  simpl in *. rewrite IH by (intros; eapply Hn; [right|]; eassumption).
  rewrite (Hn d' k'); [reflexivity | left; assumption | assumption].
Qed.

Lemma entries_get_some k entries l d :
  Forall2 (fun j e => j = JObj (snd e)
                      /\ dict_get "id" (snd e) = Some (fst e)
                      /\ hashable (fst e) = true) l entries ->
  index_get k entries = Some d ->
  In (JObj d) l /\ exists k0, dict_get "id" d = Some k0 /\ py_eqb k k0 = true.
Proof.
  induction 1 as [|j [k' d'] l entries (Hj & Hid & _) HF IH]; [discriminate|].
  simpl in *. destruct (index_get k entries) as [v|].
  - intros [= ->]. destruct (IH eq_refl) as (Hin & Hk). auto.
  - destruct (py_eqb k k') eqn:E; [|discriminate].
    intros [= ->]. split; [left; assumption | eauto].
Qed.

End IndexFacts.

(** X9. The index that [_fetch_media_details] builds holds the records of
    the listing under their ids, and of two records with the same id the
    later one: a record is found under its id when no record after it has
    that id, and whatever is found under a key is a record of the listing
    whose id is that key. *)
Theorem later_media_record_wins {P : Platform}
    (article_id : json) (w : world) (l1 l2 : list json) (d : dict) (k : json)
    (idx : index) :
  net (length (requests w)) (substitute BASE_MEDIA_URL article_id)
  = Body (JArr (l1 ++ JObj d :: l2)) ->
  fst (_fetch_media_details article_id w) = Ok (Some idx) ->
  dict_get "id" d = Some k ->
  (forall d2 k2, In (JObj d2) l2 -> dict_get "id" d2 = Some k2 -> py_eqb k k2 = false) ->
  index_get k idx = Some d
  /\ forall k' d',
       index_get k' idx = Some d' ->
       In (JObj d') (l1 ++ JObj d :: l2)
       /\ exists k0, dict_get "id" d' = Some k0 /\ py_eqb k' k0 = true.
Proof.
  intros Hn Hf Hk Hl. rewrite (fetch_media_body _ _ _ Hn) in Hf.
  destruct (index_media (l1 ++ JObj d :: l2) []) as [idx'|e] eqn:E; [|discriminate].
  injection Hf as ->. apply index_media_entries in E.
  destruct E as (entries & -> & HF). cbn [app] in *. split.
  - apply Forall2_app_inv_l in HF.
    destruct HF as (e1 & e2 & _ & HF & ->).
    inversion HF as [|? [k0 d0] ? e3 (Hj & Hid & Hh) HF3]; subst. simpl in *.
    injection Hj as <-. rewrite Hk in Hid. injection Hid as <-.
    rewrite index_get_app. simpl.
    rewrite (entries_get_none k e3 l2 HF3 Hl).
    now rewrite (py_eqb_refl k Hh).
  - intros k' d' H. eapply entries_get_some; eassumption.
Qed.

Lemma later_media_record_wins_witness :
  index_get (JStr "v2") Demo2.index_b1 = Some Demo2.record_v2
  /\ forall k' d',
       index_get k' Demo2.index_b1 = Some d' ->
       In (JObj d') ([JObj Demo2.record_v1; JObj Demo2.record_v2_old]
                     ++ JObj Demo2.record_v2 :: [])
       /\ exists k0, dict_get "id" d' = Some k0 /\ py_eqb k' k0 = true.
Proof.
  apply (later_media_record_wins (P := Demo2.platform) (JStr "b1") Demo2.w0
           [JObj Demo2.record_v1; JObj Demo2.record_v2_old] []
           Demo2.record_v2 (JStr "v2") Demo2.index_b1).
  - reflexivity.
  - reflexivity.
  - reflexivity.
  - intros d2 k2 [].
Defined.

(** X10. A media listing with a record that cannot be indexed (not a dict,
    without [id], or with an [id] that cannot be hashed) makes
    [_fetch_media_details] raise, and with it every run of
    [_extract_sections] over a payload that has an image or media
    descriptor: the sections are not skipped, the item is lost. *)
Theorem bad_media_record_aborts {P : Platform}
    (article_id : json) (w : world) (l : list json) :
  net (length (requests w)) (substitute BASE_MEDIA_URL article_id) = Body (JArr l) ->
  existsb bad_record l = true ->
  (exists e, fst (_fetch_media_details article_id w) = Raise e)
  /\ forall hs,
       existsb is_media_descriptor hs = true ->
       exists e, fst (_extract_sections (JArr hs) article_id w) = Raise e.
Proof.
  intros Hn Hb.
  assert (exists e, fst (_fetch_media_details article_id w) = Raise e) as (e & He).
  { rewrite (fetch_media_body _ _ _ Hn).
    destruct (index_media_bad l [] Hb) as (e & ->). cbn [rbind]. eauto. }
  split; [eauto|]. intros hs Hm.
  rewrite extract_sections_result, He. cbn [py_iter rbind].
  apply existsb_exists in Hm. destruct Hm as (h & Hin & Hh).
  apply (collect_raises _ hs h e Hin).
  destruct h as [| | | | |header]; try discriminate.
  destruct (media_descriptor_info _ Hh) as (t & info & Et & Es & Hc).
  unfold map_header. rewrite Et. cbn [rbind]. rewrite Es. cbn [rbind section_info].
  now rewrite Hc.
Qed.

Lemma bad_media_record_aborts_witness :
  (exists e, fst (_fetch_media_details (P := Demo2.platform) (JStr "b2") Demo2.w0)
             = Raise e)
  /\ forall hs,
       existsb is_media_descriptor hs = true ->
       exists e,
         fst (_extract_sections (P := Demo2.platform) (JArr hs) (JStr "b2") Demo2.w0)
         = Raise e.
Proof.
  apply (bad_media_record_aborts (P := Demo2.platform) (JStr "b2") Demo2.w0
           Demo2.media_b2).
  - reflexivity.
  - reflexivity.
Defined.

(** X11. [_fetch_media_details] answers [None] exactly when [fetch] does:
    on a transport error, an error status or a body that is JSON [null].
    An empty listing gives an empty index, not [None]. *)
Theorem media_index_none_iff_fetch_fails {P : Platform} (article_id : json) (w : world) :
  (fst (_fetch_media_details article_id w) = Ok None
   <-> fetch_fails (net (length (requests w)) (substitute BASE_MEDIA_URL article_id))
       = true)
  /\ (net (length (requests w)) (substitute BASE_MEDIA_URL article_id) = Body (JArr [])
      -> fst (_fetch_media_details article_id w) = Ok (Some [])).
Proof.
  unfold _fetch_media_details, bind, fetch.
  destruct (net _ _) as [| | |j]; cbn [fetch_fails fst].
  - split; [split; reflexivity | discriminate].
  - split; [split; reflexivity | discriminate].
  - split; [split; discriminate | discriminate].
  - split.
    + destruct j; cbn [fetch_fails fst ret lift]; try (split; reflexivity);
        (split; [|discriminate]);
        match goal with
        | |- context [py_iter ?x] => destruct (py_iter x) as [items|]; cbn [rbind]
        end; try discriminate;
        destruct (index_media items []); discriminate.
    + intros [= ->]. reflexivity.
Qed.

(* ================================================================== *)
(** ** [Article.details] *)

Section DetailsFacts.

Context {P : Platform}.
Local Open Scope io_scope.

(** The end of [details]: extraction, validation, printing. *)
Lemma details_tail response w1 :
  exists r w',
    bind (_extract_details response)
      (fun detail =>
         bind (lift (match validate_article detail with
                     | Some a => Ok a
                     | None => Raise ValidationError
                     end)) print) w1 = (r, w')
    /\ (requests w' = requests w1
        \/ exists mid, requests w' = substitute BASE_MEDIA_URL mid :: requests w1)
    /\ (printed w' = printed w1
        \/ (r = Ok tt /\ exists text, printed w' = text :: printed w1)).
Proof.
  unfold bind at 1.
  pose proof (extract_details_world response w1) as Hd.
  destruct (_extract_details response w1) as [[d|e] w2]; cbn [snd] in Hd.
  - rewrite bind_lift. destruct (validate_article d) as [a|].
    + unfold print. destruct (render a) as [text|].
      * eexists _, _. split; [reflexivity|].
        destruct Hd as [-> | (mid & ->)]; cbn [requests printed]; split; eauto.
      * eexists _, _. split; [reflexivity|].
        destruct Hd as [-> | (mid & ->)]; cbn [requests printed]; split; eauto.
    + eexists _, _. split; [reflexivity|].
      destruct Hd as [-> | (mid & ->)]; cbn [requests printed]; split; eauto.
  - eexists _, _. split; [reflexivity|].
    destruct Hd as [-> | (mid & ->)]; cbn [requests printed]; split; eauto.
Qed.

(** What a call of [details] leaves behind. *)
Lemma details_shape heading w :
  exists r w',
    details heading w = (r, w')
    /\ (requests w' = requests w
        \/ exists id,
             subscript heading "id" = Ok id
             /\ (requests w' = substitute ARTICLE_DETAIL_URL id :: requests w
                 \/ exists mid,
                      requests w'
                      = substitute BASE_MEDIA_URL mid
                          :: substitute ARTICLE_DETAIL_URL id :: requests w))
    /\ (printed w' = printed w
        \/ (r = Ok tt /\ exists text, printed w' = text :: printed w)).
Proof.
  unfold details. rewrite bind_lift.
  destruct (subscript heading "id") as [id|e]; [|eexists _, _; eauto].
  set (url := substitute ARTICLE_DETAIL_URL id).
  unfold bind at 1, fetch.
  set (w1 := mkWorld (url :: requests w) (printed w)).
  assert (forall response,
    exists r w',
      bind (_extract_details response)
        (fun detail =>
           bind (lift (match validate_article detail with
                       | Some a => Ok a
                       | None => Raise ValidationError
                       end)) print) w1 = (r, w')
      /\ (requests w' = requests w
          \/ exists id0,
               Ok id = Ok id0
               /\ (requests w' = substitute ARTICLE_DETAIL_URL id0 :: requests w
                   \/ exists mid,
                        requests w'
                        = substitute BASE_MEDIA_URL mid
                            :: substitute ARTICLE_DETAIL_URL id0 :: requests w))
      /\ (printed w' = printed w
          \/ (r = Ok tt /\ exists text, printed w' = text :: printed w))) as G.
  { intros response.
    destruct (details_tail response w1) as (r & w' & E & Hr & Hp).
    exists r, w'. split; [exact E|]. split; [|exact Hp].
    right. exists id. split; [reflexivity|].
    destruct Hr as [-> | (mid & ->)]; eauto. }
  assert (forall r0 : result unit,
    exists r w',
      (r0, w1) = (r, w')
      /\ (requests w' = requests w
          \/ exists id0,
               Ok id = Ok id0
               /\ (requests w' = substitute ARTICLE_DETAIL_URL id0 :: requests w
                   \/ exists mid,
                        requests w'
                        = substitute BASE_MEDIA_URL mid
                            :: substitute ARTICLE_DETAIL_URL id0 :: requests w))
      /\ (printed w' = printed w
          \/ (r = Ok tt /\ exists text, printed w' = text :: printed w))) as G0.
  { intros r0. exists r0, w1. split; [reflexivity|]. split; [|now left].
    right. exists id. split; [reflexivity|]. now left. }
  destruct (net _ url) as [| | |j]; try apply G0.
  destruct j; try apply G. apply G0.
Qed.

End DetailsFacts.

(** X12. When the fetch of the detail answers [None] (transport error,
    error status, or a body that is JSON [null]), [details] returns
    normally after that one request: the item is skipped, nothing is
    printed and nothing is raised. *)
Theorem failed_detail_fetch_skips_item {P : Platform}
    (heading id : json) (w : world) :
  subscript heading "id" = Ok id ->
  fetch_fails (net (length (requests w)) (substitute ARTICLE_DETAIL_URL id)) = true ->
  details heading w
  = (Ok tt, mkWorld (substitute ARTICLE_DETAIL_URL id :: requests w) (printed w)).
Proof.
  intros Hid Hf. unfold details. rewrite bind_lift, Hid.
  unfold bind, fetch.
  destruct (net _ _) as [| | |j]; try reflexivity; try discriminate.
  destruct j; try discriminate. reflexivity.
Qed.

Lemma failed_detail_fetch_skips_item_witness :
  details (P := Demo2.platform) (JObj [("id", JStr "zz")]%string) Demo2.w0
  = (Ok tt,
     mkWorld [substitute (P := Demo2.platform) ARTICLE_DETAIL_URL (JStr "zz")] []).
Proof.
  apply (failed_detail_fetch_skips_item (P := Demo2.platform)); reflexivity.
Defined.

(** X13. One call of [details] makes two requests at most: none when the
    heading has no [id], else one for the detail of that id, followed by
    at most one for a media listing. *)
Theorem details_requests_at_most_two {P : Platform} (heading : json) (w : world) :
  let w' := snd (details heading w) in
  requests w' = requests w
  \/ exists id,
       subscript heading "id" = Ok id
       /\ (requests w' = substitute ARTICLE_DETAIL_URL id :: requests w
           \/ exists mid,
                requests w'
                = substitute BASE_MEDIA_URL mid
                    :: substitute ARTICLE_DETAIL_URL id :: requests w).
Proof.
  cbv zeta. destruct (details_shape heading w) as (r & w' & -> & H & _).
  exact H.
Qed.

(** X14. [details] prints only for an item it resolved: a call that raises
    has printed nothing, and a call that returns has printed nothing or
    one text, the last thing it did. *)
Theorem details_prints_last_or_nothing {P : Platform} (heading : json) (w : world) :
  match fst (details heading w) with
  | Raise _ => printed (snd (details heading w)) = printed w
  | Ok _ =>
      printed (snd (details heading w)) = printed w
      \/ exists text, printed (snd (details heading w)) = text :: printed w
  end.
Proof.
  destruct (details_shape heading w) as (r & w' & -> & _ & H).
  cbn [fst snd]. destruct r as [u|e].
  - destruct H as [H | (_ & H)]; auto.
  - destruct H as [H | (H & _)]; [exact H | discriminate].
Qed.

(* ================================================================== *)
(** ** The keys a payload must have *)

(** X15. A payload that [_extract_details] resolves is a dict with [id],
    [original_language], a [pub_date] text that reads with [;], a
    [mod_date] text that reads with [:], and [sections] that can be
    iterated; none of the five keys is optional. The detail carries the
    id, the language and the two instants read. *)
Theorem resolved_payload_has_required_keys {P : Platform}
    (response : json) (w : world) (d : detail) :
  fst (_extract_details response w) = Ok d ->
  exists r pub md sections hs,
    response = JObj r
    /\ dict_get "id" r = Some (d_id d)
    /\ dict_get "original_language" r = Some (d_original_language d)
    /\ dict_get "pub_date" r = Some (JStr pub)
    /\ to_datetime (JStr pub) ";" = Ok (d_publication_date d)
    /\ dict_get "mod_date" r = Some (JStr md)
    /\ to_datetime (JStr md) ":" = Ok (d_modification_date d)
    /\ dict_get "sections" r = Some sections
    /\ py_iter sections = Ok hs.
Proof.
  intros Hd. destruct response as [| | | | |r]; try discriminate.
  destruct (_extract_details (JObj r) w) as [res w'] eqn:E.
  simpl in Hd. subst res. apply extract_details_inv in E.
  destruct E as (id & lang & cats & tags & pub & pd & md & secs
                 & Hid & Hl & _ & _ & Hpub & Hpd & Hmd & Hs & ->).
  cbn [d_id d_original_language d_publication_date d_modification_date].
  destruct pub as [| | |pub| |]; try discriminate.
  destruct (dict_get "mod_date" r) as [m|] eqn:Em;
    [|rewrite IsoFacts.isoformat_rejected in Hmd; discriminate].
  destruct m as [| | |m| |]; try discriminate.
  apply (f_equal fst) in Hs. rewrite extract_sections_result in Hs. cbn [fst] in Hs.
  unfold py_get in Hs.
  destruct (dict_get "sections" r) as [sections|] eqn:Es; [|discriminate].
  destruct (py_iter sections) as [hs|] eqn:Ei; [|discriminate].
  exists r, pub, m, sections, hs.
  repeat match goal with |- _ /\ _ => split end; solve [reflexivity | assumption].
Qed.

Lemma resolved_payload_has_required_keys_witness :
  exists d,
    fst (_extract_details (P := Demo2.platform) (JObj Demo2.payload_b1) Demo2.w0)
    = Ok d
    /\ exists r pub md sections hs,
         JObj Demo2.payload_b1 = JObj r
         /\ dict_get "id" r = Some (d_id d)
         /\ dict_get "original_language" r = Some (d_original_language d)
         /\ dict_get "pub_date" r = Some (JStr pub)
         /\ to_datetime (JStr pub) ";" = Ok (d_publication_date d)
         /\ dict_get "mod_date" r = Some (JStr md)
         /\ to_datetime (JStr md) ":" = Ok (d_modification_date d)
         /\ dict_get "sections" r = Some sections
         /\ py_iter sections = Ok hs.
Proof.
  eexists. split; [vm_compute; reflexivity|].
  apply (resolved_payload_has_required_keys (P := Demo2.platform)
           (JObj Demo2.payload_b1) Demo2.w0).
  reflexivity.
Defined.

(* ================================================================== *)
(** ** Sets of categories and tags *)

Lemma py_eqb_sym a b : py_eqb a b = py_eqb b a.
Proof.
  destruct a, b; simpl; try reflexivity.
  - now destruct b, b0.
  - apply Z.eqb_sym.
  - apply String.eqb_sym.
Qed.

Lemma distinct_snoc (s : list json) (x : json) :
  py_distinct s -> existsb (py_eqb x) s = false -> py_distinct (s ++ [x]).
Proof.
  unfold py_distinct. induction 1 as [|a s Ha Hs IH]; simpl.
  - intros _. repeat constructor.
  - intros H. apply orb_false_iff in H. destruct H as [Hx Hr].
    constructor; [|auto].
    apply Forall_app. split; [exact Ha|].
    constructor; [|constructor]. now rewrite py_eqb_sym.
Qed.

Lemma py_set_distinct l : forall acc,
  py_distinct acc -> py_distinct (fold_left py_set_add l acc).
Proof.
  induction l as [|a l IH]; simpl; [auto|]. intros acc H. apply IH.
  unfold py_set_add. destruct (existsb (py_eqb a) acc) eqn:E; [exact H|].
  now apply distinct_snoc.
Qed.

(** X16. For a non-empty list of strings, numbers, booleans and nulls,
    [set(cat)] is a set: its elements are elements of the list, every
    element of the list is equal to one of them, and no two of them are
    equal. *)
Theorem category_list_becomes_a_set (x : json) (l : list json) :
  forallb hashable (x :: l) = true ->
  exists s,
    set_or_self (JArr (x :: l)) = Ok (VSet s)
    /\ py_distinct s
    /\ (forall y, In y s -> In y (x :: l))
    /\ (forall y, In y (x :: l) -> existsb (py_eqb y) s = true).
Proof.
  intros Hh. unfold set_or_self, py_set. cbn [truthy py_iter rbind]. rewrite Hh.
  eexists. split; [reflexivity|]. repeat split.
  - apply py_set_distinct. constructor.
  - intros y Hy. apply py_set_members in Hy. destruct Hy as [[]|Hy]. exact Hy.
  - intros y Hy. apply py_set_adds; [|exact Hy].
    rewrite forallb_forall in Hh. auto.
Qed.

Lemma category_list_becomes_a_set_witness :
  exists s,
    set_or_self (JArr [JStr "news"; JStr "local"; JStr "news"]) = Ok (VSet s)
    /\ py_distinct s
    /\ (forall y, In y s -> In y [JStr "news"; JStr "local"; JStr "news"])
    /\ (forall y, In y [JStr "news"; JStr "local"; JStr "news"] ->
                  existsb (py_eqb y) s = true).
Proof.
  apply (category_list_becomes_a_set (JStr "news") [JStr "local"; JStr "news"]).
  reflexivity.
Defined.

(** X17. A [category] or [tag] list with an element that is itself a list
    or a dict cannot be made a set: [set(cat)] raises [TypeError] and
    [_extract_details] raises. *)
Theorem unhashable_category_raises {P : Platform} (l : list json) (x : json) :
  In x l ->
  hashable x = false ->
  set_or_self (JArr l) = Raise TypeError
  /\ forall r w,
       dict_get "category" r = Some (JArr l) \/ dict_get "tag" r = Some (JArr l) ->
       exists e, fst (_extract_details (JObj r) w) = Raise e.
Proof.
  intros Hin Hx.
  assert (set_or_self (JArr l) = Raise TypeError) as Hs.
  { unfold set_or_self, py_set. destruct l as [|y l]; [destruct Hin|].
    cbn [truthy py_iter rbind].
    destruct (forallb hashable (y :: l)) eqn:E; [|reflexivity].
    rewrite forallb_forall in E. rewrite (E x Hin) in Hx. discriminate. }
  split; [exact Hs|]. intros r w Hr. apply raised_or. intros d Hd.
  destruct (_extract_details (JObj r) w) as [res w'] eqn:E.
  simpl in Hd. subst res. apply extract_details_inv in E.
  destruct E as (? & ? & cats & tags & ? & ? & ? & ? & _ & _ & Hc & Ht & _).
  unfold py_get in Hc, Ht.
  destruct Hr as [Hr | Hr]; rewrite Hr in *; congruence.
Qed.

Lemma unhashable_category_raises_witness :
  set_or_self (JArr [JStr "news"; JArr []]) = Raise TypeError
  /\ forall r w,
       dict_get "category" r = Some (JArr [JStr "news"; JArr []])
       \/ dict_get "tag" r = Some (JArr [JStr "news"; JArr []]) ->
       exists e, fst (_extract_details (P := Demo2.platform) (JObj r) w) = Raise e.
Proof.
  apply (unhashable_category_raises (P := Demo2.platform)
           [JStr "news"; JArr []] (JArr [])).
  - right. left. reflexivity.
  - reflexivity.
Defined.
